(** * moragents: the delegator and two leaf agents

    A shallow embedding of
      - [delegator.py]                       (class [Delegator]),
      - [agents/realtime_search/agent.py]    (class [RealtimeSearchAgent]),
      - [agents/dca_agent/agent.py]          (class [DCAAgent]),
    followed by the properties of the dispatch layer.

    Python objects are records, [self] is threaded explicitly, and every
    method is a computation that yields an outcome (a returned value or a
    raised exception), the final [self] and the effects it emitted, in
    order.  The language model, the HTTP client, the HTML parser, the
    module importer and the DCA [tools] module are not part of these
    three files: a method takes what it uses of them as a parameter,
    given by what each call returns or raises. *)

From stdpp Require Import base strings gmap list.
From Stdlib Require Import ZArith.

Open Scope Z_scope.
Open Scope string_scope.

Set Warnings "-register-all".

(** ** Python values, exceptions and effects *)

Module Py.

(** JSON-like Python values.  A float literal is kept as a decimal
    [mantissa * 10 ^ exponent]; no arithmetic is performed on it. *)
Inductive pyval : Type :=
| VNone
| VBool (b : bool)
| VInt (z : Z)
| VFloat (mantissa exponent : Z)
| VStr (s : string)
| VList (l : list pyval)
| VTuple (l : list pyval)
| VDict (d : gmap string pyval).

(** Classes of the exceptions that occur in the three files.  All of them
    derive from [Exception]; [HTTPError], [ConnectionError] and [Timeout]
    derive from [requests.RequestException].  What derives from
    [BaseException] alone ([KeyboardInterrupt], [SystemExit],
    [GeneratorExit]) ends the process rather than reports a failure and
    has no place here. *)
Inductive exc_class : Type :=
| KeyError
| IndexError
| TypeError
| AttributeError
| ValueError
| ImportError
| ValidationError
| ExecutionError
| StrategyNotFoundError
| RequestException
| HTTPError
| ConnectionError
| Timeout
| OtherException (cls : string).

(** An exception object: its class and what [str(e)] gives. *)
Record exc : Type := Exc { exc_cls : exc_class; exc_str : string }.

Definition is_RequestException (c : exc_class) : bool :=
  match c with
  | RequestException | HTTPError | ConnectionError | Timeout => true
  | _ => false
  end.

Definition is_ValidationError (c : exc_class) : bool :=
  match c with ValidationError => true | _ => false end.

Definition is_ExecutionError (c : exc_class) : bool :=
  match c with ExecutionError => true | _ => false end.

Definition is_StrategyNotFoundError (c : exc_class) : bool :=
  match c with StrategyNotFoundError => true | _ => false end.

Inductive outcome (A : Type) : Type :=
| Ret (a : A)
| Raise (e : exc).
Arguments Ret {A} a.
Arguments Raise {A} e.

Inductive log_level : Type := INFO | WARNING | ERROR.

(** What a method does to the outside world, in order. *)
Inductive event : Type :=
| EvLog (lvl : log_level) (msg : string) (args : list pyval)
| EvHttpGet (url : string) (user_agent : string)
| EvLlmInvoke (messages : list (string * pyval))
| EvSelectInvoke (system_prompt : string) (prompt : pyval) (enum : list string)
| EvChatCompletion (messages : list (string * pyval))
| EvAgentChat (agent_name : string)
| EvImport (path cls : string)
| EvTool (fn : string) (args : list (string * pyval)).

Definition is_http_get (ev : event) : bool :=
  match ev with EvHttpGet _ _ => true | _ => false end.

Definition is_llm_invoke (ev : event) : bool :=
  match ev with EvLlmInvoke _ => true | _ => false end.

Definition is_chat_completion (ev : event) : bool :=
  match ev with EvChatCompletion _ => true | _ => false end.

Definition is_agent_chat (ev : event) : bool :=
  match ev with EvAgentChat _ => true | _ => false end.

Definition is_select_invoke (ev : event) : bool :=
  match ev with EvSelectInvoke _ _ _ => true | _ => false end.

Definition is_tool (ev : event) : bool :=
  match ev with EvTool _ _ => true | _ => false end.

Definition is_error_log (ev : event) : bool :=
  match ev with EvLog ERROR _ _ => true | _ => false end.

(** Effects of one call: every method takes [self] and returns the outcome,
    the [self] it leaves behind and the events it emitted.  A raised
    exception keeps the mutations made before it. *)
Definition M (S A : Type) : Type := S → outcome A * S * list event.

Definition raise {S A} (e : exc) : M S A := λ s, (Raise e, s, []).

#[global] Instance M_ret {S} : MRet (M S) := λ A a s, (Ret a, s, []).

#[global] Instance M_bind {S} : MBind (M S) := λ A B k m s,
  match m s with
  | (Ret a, s1, t1) =>
      match k a s1 with (o, s2, t2) => (o, s2, (t1 ++ t2)%list) end
  | (Raise e, s1, t1) => (Raise e, s1, t1)
  end.

(** [try: m  except C1 as e: h1 e  except C2 as e: h2 e ...]: the first
    clause whose class test accepts the exception handles it; what a
    handler raises is not offered to the other clauses. *)
Definition handler (S A : Type) : Type := (exc_class → bool) * (exc → M S A).

Fixpoint find_clause {S A} (clauses : list (handler S A)) (e : exc)
  : option (exc → M S A) :=
  match clauses with
  | [] => None
  | (catches, h) :: rest =>
      if catches (exc_cls e) then Some h else find_clause rest e
  end.

Definition try_excepts {S A} (m : M S A) (clauses : list (handler S A))
  : M S A :=
  λ s, match m s with
       | (Ret a, s1, t1) => (Ret a, s1, t1)
       | (Raise e, s1, t1) =>
           match find_clause clauses e with
           | Some h =>
               match h e s1 with (o, s2, t2) => (o, s2, (t1 ++ t2)%list) end
           | None => (Raise e, s1, t1)
           end
       end.

Definition try_except {S A} (m : M S A) (catches : exc_class → bool)
    (h : exc → M S A) : M S A :=
  try_excepts m [(catches, h)].

Definition emit {S} (ev : event) : M S unit := λ s, (Ret tt, s, [ev]).
Definition log {S} (lvl : log_level) (msg : string) (args : list pyval)
  : M S unit := emit (EvLog lvl msg args).
Definition get {S} : M S S := λ s, (Ret s, s, []).
Definition put {S} (s' : S) : M S unit := λ _, (Ret tt, s', []).
Definition lift {S A} (o : outcome A) : M S A := λ s, (o, s, []).

(** [except Exception]: every class of [exc_class] derives from it. *)
Definition any_Exception (c : exc_class) : bool := true.

(** *** Operations on values *)

(** [bool(v)], as [if v:] and [if not v:] compute it. *)
Definition truthy (v : pyval) : bool :=
  match v with
  | VNone => false
  | VBool b => b
  | VInt z => negb (Z.eqb z 0)
  | VFloat m _ => negb (Z.eqb m 0)
  | VStr s => negb (String.eqb s "")
  | VList l | VTuple l => match l with [] => false | _ => true end
  | VDict d => negb (bool_decide (size d = 0%nat))
  end.

Definition is_None (v : pyval) : bool :=
  match v with VNone => true | _ => false end.

Definition type_name (v : pyval) : string :=
  match v with
  | VNone => "NoneType"
  | VBool _ => "bool"
  | VInt _ => "int"
  | VFloat _ _ => "float"
  | VStr _ => "str"
  | VList _ => "list"
  | VTuple _ => "tuple"
  | VDict _ => "dict"
  end.

Definition is_str (k : string) (v : pyval) : bool :=
  match v with VStr s => String.eqb s k | _ => false end.

Definition is_substring (k s : string) : bool :=
  match String.index 0 k s with Some _ => true | None => false end.

(** [v[k]] for a string literal [k]. *)
Definition getitem (v : pyval) (k : string) : outcome pyval :=
  match v with
  | VDict d =>
      match d !! k with
      | Some x => Ret x
      | None => Raise (Exc KeyError ("'" ++ k ++ "'"))
      end
  | VStr _ => Raise (Exc TypeError "string indices must be integers")
  | VList _ =>
      Raise (Exc TypeError "list indices must be integers or slices, not str")
  | VTuple _ =>
      Raise (Exc TypeError "tuple indices must be integers or slices, not str")
  | _ => Raise (Exc TypeError
                  ("'" ++ type_name v ++ "' object is not subscriptable"))
  end.

(** [v[0]]. The keys of a [VDict] are strings, so [0] is never one. *)
Definition getitem0 (v : pyval) : outcome pyval :=
  match v with
  | VList (x :: _) | VTuple (x :: _) => Ret x
  | VList [] => Raise (Exc IndexError "list index out of range")
  | VTuple [] => Raise (Exc IndexError "tuple index out of range")
  | VStr (String a _) => Ret (VStr (String a ""))
  | VStr "" => Raise (Exc IndexError "string index out of range")
  | VDict _ => Raise (Exc KeyError "0")
  | _ => Raise (Exc TypeError
                  ("'" ++ type_name v ++ "' object is not subscriptable"))
  end.

(** [k in v] for a string literal [k]. *)
Definition contains (k : string) (v : pyval) : outcome bool :=
  match v with
  | VDict d => Ret (bool_decide (is_Some (d !! k)))
  | VList l | VTuple l => Ret (existsb (is_str k) l)
  | VStr s => Ret (is_substring k s)
  | _ => Raise (Exc TypeError
                  ("argument of type '" ++ type_name v ++ "' is not iterable"))
  end.

(** [v.get(k, default)]: only a dict has the method. *)
Definition get_method (v : pyval) (k : string) (default : pyval)
  : outcome pyval :=
  match v with
  | VDict d => Ret (from_option id default (d !! k))
  | _ => Raise (Exc AttributeError
                  ("'" ++ type_name v ++ "' object has no attribute 'get'"))
  end.

(** Text is a [string] read as a sequence of code points, one per
    character, so every code point is below 256.  [c.isspace()] holds of
    twelve of them: tab, line feed, vertical tab, form feed and carriage
    return (9 to 13), the four separators U+001C to U+001F, the space,
    next line (U+0085) and the no-break space (U+00A0). *)
Definition isspace (c : Ascii.ascii) : bool :=
  let n := Ascii.N_of_ascii c in
  ((9 <=? n) && (n <=? 13) || (28 <=? n) && (n <=? 32)
   || (n =? 133) || (n =? 160))%N.

(** [s.lstrip()], [s.strip()] and [s.split()], all without argument. *)
Fixpoint lstrip (s : string) : string :=
  match s with
  | String c s' => if isspace c then lstrip s' else s
  | "" => ""
  end.

Definition strip (s : string) : string :=
  String.rev (lstrip (String.rev (lstrip s))).

(** [word] holds the characters of the word being read, last one
    first. *)
Definition close_word (word : string) : list string :=
  match word with
  | "" => []
  | _ => [String.rev word]
  end.

Fixpoint split_from (word s : string) : list string :=
  match s with
  | "" => close_word word
  | String c s' =>
      if isspace c then (close_word word ++ split_from "" s')%list
      else split_from (String c word) s'
  end.

Definition split (s : string) : list string := split_from "" s.

(** ["sep".join(l)]. *)
Fixpoint join (sep : string) (l : list string) : string :=
  match l with
  | [] => ""
  | [x] => x
  | x :: l' => x ++ sep ++ join sep l'
  end.

End Py.

Import Py.


(** ** The collaborators outside the three files *)

(** The message a chat model answers with. *)
Record AIMessage : Type :=
  { content : string;
    tool_calls : pyval }.

(** A chat model handle ([ChatOllama] for the delegator and the search
    agent, a llama-cpp style completion object for the DCA agent).  Each
    field is what the method of that name returns for its arguments. *)
Record LLM : Type :=
  { invoke : list (string * pyval) → outcome AIMessage;
    (** [llm.bind_tools(tools).invoke(messages)] of lines 78-85 of
        delegator.py, from the enumeration of the [select_agent] tool,
        the system prompt and the user prompt *)
    bind_tools_invoke : list string → string → pyval → outcome AIMessage;
    (** [llm.create_chat_completion(messages=..., tools=...,
        tool_choice="auto", temperature=0.01)] *)
    create_chat_completion : list (string * pyval) → pyval → outcome pyval }.

Inductive Embeddings : Type := EmbeddingsHandle (model : string).

(** A response of [requests]; [url] is the address that the response
    was served from, as [requests] has encoded it. *)
Record HttpResponse : Type :=
  { status_code : Z;
    reason : string;
    url : string;
    text : string }.

(** The request object handed to [chat]: [request.dict()] (pydantic) and
    [request.get_json()] (flask).  A request class that lacks one of the
    two methods raises [AttributeError] there. *)
Record ChatRequest : Type :=
  { req_dict : outcome pyval;
    req_get_json : outcome pyval }.

(** One agent descriptor of [config["agents"]]. *)
Record agent_info : Type :=
  { name : string;
    path : string;
    class : string;
    description : string;
    upload_required : bool }.

Definition nl : string := String (Ascii.ascii_of_nat 10) "".

(** ** agents/realtime_search/agent.py *)

Module RealtimeSearch.

Definition USER_AGENT : string :=
  "Mozilla/5.0 (Windows NT 10.0; Win64; x64) AppleWebKit/537.36 (KHTML, like Gecko) Chrome/91.0.4472.124 Safari/537.36".

Record RealtimeSearchAgent : Type :=
  { config : agent_info;
    llm : LLM;
    embeddings : Embeddings;
    last_search_term : pyval }.

Definition __init__ (config : agent_info) (llm : LLM) (embeddings : Embeddings)
  : RealtimeSearchAgent :=
  {| config := config; llm := llm; embeddings := embeddings;
     last_search_term := VNone |}.

Definition set_last_search_term (v : pyval) (self : RealtimeSearchAgent)
  : RealtimeSearchAgent :=
  {| config := config self; llm := llm self; embeddings := embeddings self;
     last_search_term := v |}.

Section Methods.

(** [requests.get(url, headers=...)], the result divisions that
    [BeautifulSoup(text, "html.parser").find_all("div", class_="g")] finds,
    each already as its [get_text(strip=True)], and [str(v)] of a value
    that is not a string. *)
Variable requests_get : string → string → outcome HttpResponse.
Variable find_all_g : string → list string.
Variable str_of : pyval → string.

(** What an f-string interpolates for [v]. *)
Definition fmt (v : pyval) : string :=
  match v with VStr s => s | _ => str_of v end.

(** [response.raise_for_status()] *)
Definition raise_for_status {S} (r : HttpResponse) : M S unit :=
  if ((400 <=? status_code r) && (status_code r <? 500))%Z then
    raise (Exc HTTPError (fmt (VInt (status_code r)) ++ " Client Error: "
                            ++ reason r ++ " for url: " ++ url r))
  else if ((500 <=? status_code r) && (status_code r <? 600))%Z then
    raise (Exc HTTPError (fmt (VInt (status_code r)) ++ " Server Error: "
                            ++ reason r ++ " for url: " ++ url r))
  else mret tt.

(** Lines 31-52: the part of [perform_search] after the search term has
    been settled. *)
Definition search_for (search_term : pyval) : M RealtimeSearchAgent string :=
  log INFO "Performing web search for: {search_term}" [search_term];;
  try_except
    (let url := "https://www.google.com/search?q=" ++ fmt search_term in
     emit (EvHttpGet url USER_AGENT);;
     response ← lift (requests_get url USER_AGENT);
     raise_for_status response;;
     let search_results := find_all_g (text response) in
     let formatted_results :=
       (λ result_text, "Result:" ++ nl ++ result_text)
         <$> take 5 search_results in
     mret (join (nl ++ nl) formatted_results))
    is_RequestException
    (λ e,
       log ERROR "Error performing web search: {str(e)}" [VStr (exc_str e)];;
       mret ("Error performing web search: " ++ exc_str e)).

Definition perform_search (search_term : pyval)
  : M RealtimeSearchAgent string :=
  self ← get;
  if negb (is_None search_term) then
    put (set_last_search_term search_term self);;
    search_for search_term
  else if is_None (last_search_term self) then
    log WARNING "No search term available for web search" [];;
    mret "Web search failed. Please provide a search term."
  else
    search_for (last_search_term self).

Definition synthesize_answer (search_term : pyval) (search_results : string)
  : M RealtimeSearchAgent string :=
  log INFO "Synthesizing answer from search results" [];;
  let messages :=
    [("system", VStr "You are a helpful assistant that synthesizes information from web search results to answer user queries.");
     ("user", VStr ("Based on the following search results for the query '"
                    ++ fmt search_term
                    ++ "', provide a concise and informative answer:"
                    ++ nl ++ nl ++ search_results))] in
  try_except
    (self ← get;
     emit (EvLlmInvoke messages);;
     result ← lift (invoke (llm self) messages);
     log INFO "Received response from LLM: {result}" [VStr (content result)];;
     mret (strip (content result)))
    any_Exception
    (λ e,
       log ERROR "Error synthesizing answer: {str(e)}" [VStr (exc_str e)];;
       raise e).

Definition chat (request : ChatRequest) : M RealtimeSearchAgent pyval :=
  try_except
    (data ← lift (req_dict request);
     log INFO "Received chat request: {data}" [data];;
     has_prompt ← lift (contains "prompt" data);
     if has_prompt : bool then
       prompt ← lift (getitem data "prompt");
       search_term ← lift (getitem prompt "content");
       log INFO "Performing web search for prompt: {search_term}"
         [search_term];;
       search_results ← perform_search search_term;
       log INFO "Search results obtained" [];;
       synthesized_answer ← synthesize_answer search_term search_results;
       log INFO "Synthesized answer: {synthesized_answer}"
         [VStr synthesized_answer];;
       mret (VDict {[ "role" := VStr "assistant";
                      "content" := VStr synthesized_answer ]})
     else
       log ERROR "Missing 'prompt' in chat request data" [];;
       mret (VTuple [VDict {[ "error" := VStr "Missing parameters" ]};
                     VInt 400]))
    any_Exception
    (λ e,
       log ERROR "Unexpected error in chat method: {str(e)}"
         [VStr (exc_str e)];;
       mret (VTuple [VDict {[ "Error" := VStr (exc_str e) ]}; VInt 500])).

End Methods.

End RealtimeSearch.

(** ** agents/dca_agent/agent.py *)

Module DCA.

(** The bound methods stored in [self.function_handlers]. *)
Inductive bound_method : Type :=
| self_handle_dollar_cost_average
| self_handle_pause_dca_strategy
| self_handle_resume_dca_strategy
| self_handle_cancel_dca_strategy.

Inductive Cdp : Type := CdpClient.

Record DCAAgent : Type :=
  { config : agent_info;
    llm : LLM;
    embeddings : Embeddings;
    client : Cdp;
    tools_provided : pyval;
    _sync_task : pyval;
    _executors : gmap string pyval;
    function_handlers : gmap string bound_method }.

(** What [chat] hands back through [handle_request]:
    [(response, role, next_turn_agent)]. *)
Definition reply : Type := pyval * pyval * pyval.

Section Methods.

(** The [tools] module of the agent and the [cdp] client are outside the
    three files.  Each [tools] function is given by what it returns, or
    raises, for its arguments; a result is the pair that the handler
    unpacks as [res, role]. *)
Variable Cdp_new : outcome Cdp.
Variable tools_get_tools : outcome pyval.
Variable tools_handle_create_dca_strategy
  : list (string * pyval) → outcome (pyval * pyval).
Variable tools_handle_pause_dca_strategy : pyval → outcome (pyval * pyval).
Variable tools_handle_resume_dca_strategy : pyval → outcome (pyval * pyval).
Variable tools_handle_cancel_dca_strategy : pyval → outcome (pyval * pyval).
Variable json_loads : string → outcome pyval.
Variable str_of : pyval → string.

Definition fmt (v : pyval) : string :=
  match v with VStr s => s | _ => str_of v end.

Definition __init__ (config : agent_info) (llm : LLM) (embeddings : Embeddings)
  : outcome DCAAgent :=
  match Cdp_new with
  | Raise e => Raise e
  | Ret client =>
      match tools_get_tools with
      | Raise e => Raise e
      | Ret tools_provided =>
          Ret {| config := config; llm := llm; embeddings := embeddings;
                 client := client;
                 tools_provided := tools_provided;
                 _sync_task := VNone;
                 _executors := ∅;
                 function_handlers :=
                   {[ "handle_dollar_cost_average" :=
                        self_handle_dollar_cost_average;
                      "handle_pause_dca_strategy" :=
                        self_handle_pause_dca_strategy;
                      "handle_resume_dca_strategy" :=
                        self_handle_resume_dca_strategy;
                      "handle_cancel_dca_strategy" :=
                        self_handle_cancel_dca_strategy ]} |}
      end
  end.


Definition report (catches : exc_class → bool) (msg : string)
  : handler DCAAgent reply :=
  (catches,
   λ e, log ERROR msg [VStr (exc_str e)];;
        mret (VStr (exc_str e), VStr "assistant", VNone)).

Definition handle_dollar_cost_average (args chain_id wallet_address : pyval)
  : M DCAAgent reply :=
  try_excepts
    (token_address ← lift (getitem args "token_address");
     amount ← lift (getitem args "amount");
     interval_type ← lift (getitem args "interval_type");
     total_periods ← lift (get_method args "total_periods" VNone);
     min_price ← lift (get_method args "min_price" VNone);
     max_price ← lift (get_method args "max_price" VNone);
     max_slippage ← lift (get_method args "max_slippage" (VFloat 1 (-2)));
     gasless ← lift (get_method args "gasless" (VBool false));
     let kwargs :=
       [("token_address", token_address); ("amount", amount);
        ("interval_type", interval_type); ("total_periods", total_periods);
        ("min_price", min_price); ("max_price", max_price);
        ("max_slippage", max_slippage); ("gasless", gasless)] in
     emit (EvTool "handle_create_dca_strategy" kwargs);;
     '(res, role) ← lift (tools_handle_create_dca_strategy kwargs);
     log INFO "DCA Strategy creation result: {res}" [res];;
     strategy_id ← lift (getitem res "strategy_id");
     mret (VStr ("Successfully created DCA strategy with ID: "
                 ++ fmt strategy_id), role, VNone))
    [report is_ValidationError "Validation error in DCA creation: {str(e)}";
     report is_ExecutionError "Execution error in DCA creation: {str(e)}"].

(** The three handlers that act on an existing strategy differ in the
    [tools] function, the verb and the log texts only. *)
Definition on_strategy (fn : string)
    (tool : pyval → outcome (pyval * pyval))
    (log_ok done_text log_err : string) (args : pyval) : M DCAAgent reply :=
  try_excepts
    (strategy_id ← lift (getitem args "strategy_id");
     emit (EvTool fn [("strategy_id", strategy_id)]);;
     '(res, role) ← lift (tool strategy_id);
     log INFO log_ok [res];;
     strategy_id' ← lift (getitem args "strategy_id");
     mret (VStr (done_text ++ fmt strategy_id'), role, VNone))
    [report is_StrategyNotFoundError "Strategy not found: {str(e)}";
     report is_ExecutionError log_err].

Definition handle_pause_dca_strategy (args chain_id wallet_address : pyval)
  : M DCAAgent reply :=
  on_strategy "handle_pause_dca_strategy" tools_handle_pause_dca_strategy
    "Strategy pause result: {res}" "Successfully paused strategy "
    "Error pausing strategy: {str(e)}" args.

Definition handle_resume_dca_strategy (args chain_id wallet_address : pyval)
  : M DCAAgent reply :=
  on_strategy "handle_resume_dca_strategy" tools_handle_resume_dca_strategy
    "Strategy resume result: {res}" "Successfully resumed strategy "
    "Error resuming strategy: {str(e)}" args.

Definition handle_cancel_dca_strategy (args chain_id wallet_address : pyval)
  : M DCAAgent reply :=
  on_strategy "handle_cancel_dca_strategy" tools_handle_cancel_dca_strategy
    "Strategy cancellation result: {res}" "Successfully cancelled strategy "
    "Error cancelling strategy: {str(e)}" args.

Definition call_bound (h : bound_method)
  : pyval → pyval → pyval → M DCAAgent reply :=
  match h with
  | self_handle_dollar_cost_average => handle_dollar_cost_average
  | self_handle_pause_dca_strategy => handle_pause_dca_strategy
  | self_handle_resume_dca_strategy => handle_resume_dca_strategy
  | self_handle_cancel_dca_strategy => handle_cancel_dca_strategy
  end.

Definition handle_function_call (func_name : string)
    (args chain_id wallet_address : pyval) : M DCAAgent reply :=
  self ← get;
  match function_handlers self !! func_name with
  | Some handler => call_bound handler args chain_id wallet_address
  | None =>
      log ERROR "Function '{func_name}' not supported." [VStr func_name];;
      mret (VStr ("Error: Function '" ++ func_name ++ "' not supported."),
            VStr "assistant", VNone)
  end.

Definition system_content : string :=
  "You are a DCA (Dollar Cost Averaging) agent that helps users create and manage "
  ++ "cryptocurrency trading strategies. Available actions:" ++ nl
  ++ "1. Create new DCA strategies with specific intervals and amounts" ++ nl
  ++ "2. Pause active strategies" ++ nl
  ++ "3. Resume paused strategies" ++ nl
  ++ "4. Cancel existing strategies" ++ nl.

(** [func["name"].strip().split()[-1]] *)
Definition last_word (v : pyval) : outcome string :=
  match v with
  | VStr s =>
      match last (split (strip s)) with
      | Some w => Ret w
      | None => Raise (Exc IndexError "list index out of range")
      end
  | _ => Raise (Exc AttributeError
                  ("'" ++ type_name v ++ "' object has no attribute 'strip'"))
  end.

(** [json.loads(v)] *)
Definition loads (v : pyval) : outcome pyval :=
  match v with
  | VStr s => json_loads s
  | _ => Raise (Exc TypeError
                  ("the JSON object must be str, bytes or bytearray, not "
                   ++ type_name v))
  end.

Definition handle_request (message : pyval) : M DCAAgent reply :=
  log INFO "Processing message: {message}" [message];;
  user_content ←
    match message with
    | VDict _ => lift (get_method message "content" (VStr ""))
    | _ => mret message
    end;
  let prompt :=
    [("system", VStr system_content); ("user", user_content)] in
  self ← get;
  emit (EvChatCompletion prompt);;
  result ← lift (create_chat_completion (llm self) prompt
                   (tools_provided self));
  try_except
    (choices ← lift (getitem result "choices");
     choice0 ← lift (getitem0 choices);
     choice ← lift (getitem choice0 "message");
     has_tool_calls ← lift (contains "tool_calls" choice);
     if has_tool_calls : bool then
       calls ← lift (getitem choice "tool_calls");
       call0 ← lift (getitem0 calls);
       func ← lift (getitem call0 "function");
       raw_name ← lift (getitem func "name");
       func_name ← lift (last_word raw_name);
       log INFO "Function name: {func_name}" [VStr func_name];;
       arguments ← lift (getitem func "arguments");
       args ← lift (loads arguments);
       handle_function_call func_name args VNone VNone
     else
       content ← lift (get_method choice "content" (VStr ""));
       mret (content, VStr "assistant", VNone))
    any_Exception
    (λ e,
       log ERROR "Request processing error: {e}" [VStr (exc_str e)];;
       mret (VStr ("Error processing request: " ++ exc_str e),
             VStr "assistant", VNone)).

Definition chat (request : ChatRequest) : M DCAAgent pyval :=
  try_except
    (data ← lift (req_get_json request);
     if negb (truthy data) then
       mret (VTuple [VDict {[ "error" := VStr "Invalid request data" ]};
                     VInt 400])
     else
       has_prompt ← lift (contains "prompt" data);
       if has_prompt : bool then
         prompt ← lift (getitem data "prompt");
         '(response, role, next_turn_agent) ← handle_request prompt;
         mret (VDict {[ "role" := role; "content" := response;
                        "next_turn_agent" := next_turn_agent ]})
       else
         mret (VTuple [VDict {[ "error" :=
                                  VStr "Missing required parameters" ]};
                       VInt 400]))
    any_Exception
    (λ e,
       log ERROR "Error in chat method: {str(e)}" [VStr (exc_str e)];;
       mret (VTuple [VDict {[ "error" := VStr (exc_str e) ]}; VInt 500])).

End Methods.

End DCA.

(** ** delegator.py *)

(** What the delegator relies on in an agent object: its [chat] method and
    its truth value ([if agent:]).  The two agent classes above define
    neither [__bool__] nor [__len__], so their instances are true. *)
Class Agent (A : Type) : Type :=
  { agent_chat : ChatRequest → M A pyval;
    agent_bool : A → bool }.

(** [config]: the mapping whose ["agents"] entry lists the descriptors. *)
Record Config : Type := { config_agents : list agent_info }.

(** What [delegate_route] relies on in an agent object:
    [hasattr(agent, method_name)] and, for an attribute that is there,
    what calling it with the request does (a [TypeError] when the
    attribute is not callable or takes other arguments). *)
Class Routable (A : Type) : Type :=
  { agent_getattr : A → string → option (ChatRequest → M A pyval) }.

Module Delegator.

Definition DEFAULT_AGENT : string :=
  "general purpose and context-based rag agent".

Section Methods.

Context {A : Type} `{Agent A}.

(** A class takes [(agent_info, llm, embeddings)] to an instance, or
    raises; a module is its namespace of classes;
    [importlib.import_module] resolves a dotted path to a module, or
    raises. *)
Definition agent_class : Type := agent_info → LLM → Embeddings → outcome A.
Variable import_module : string → outcome (gmap string agent_class).

Record Delegator : Type :=
  { config : Config;
    llm : LLM;
    embeddings : Embeddings;
    agents : gmap string A }.

Definition set_agents (agents' : gmap string A) (self : Delegator)
  : Delegator :=
  {| config := config self; llm := llm self; embeddings := embeddings self;
     agents := agents' |}.

(** [getattr(module, cls)] *)
Definition getattr (module : gmap string agent_class) (cls : string)
  : outcome agent_class :=
  match module !! cls with
  | Some c => Ret c
  | None => Raise (Exc AttributeError
                     ("module has no attribute '" ++ cls ++ "'"))
  end.

(** Lines 25-33, the body of the [try] for one descriptor. *)
Definition load_one (agent_info : agent_info) (agents : gmap string A)
  : M Delegator (gmap string A) :=
  emit (EvImport (path agent_info) (class agent_info));;
  module ← lift (import_module (path agent_info));
  agent_class ← lift (getattr module (class agent_info));
  self ← get;
  agent_instance ← lift (agent_class agent_info (llm self) (embeddings self));
  let agents := <[name agent_info := agent_instance]> agents in
  log INFO "Loaded agent: %s" [VStr (name agent_info)];;
  mret agents.

Fixpoint load_agents_loop (infos : list agent_info) (agents : gmap string A)
  : M Delegator (gmap string A) :=
  match infos with
  | [] => mret agents
  | agent_info :: rest =>
      agents ← try_except (load_one agent_info agents) any_Exception
                 (λ e,
                    log ERROR "Failed to load agent %s: %s"
                      [VStr (name agent_info); VStr (exc_str e)];;
                    mret agents);
      load_agents_loop rest agents
  end.

Definition load_agents (config : Config) : M Delegator (gmap string A) :=
  load_agents_loop (config_agents config) ∅.

(** [Delegator(config, llm, embeddings)] *)
Definition __init__ (config : Config) (llm : LLM) (embeddings : Embeddings)
  : outcome Delegator * list event :=
  let self := {| config := config; llm := llm; embeddings := embeddings;
                 agents := ∅ |} in
  match load_agents config self with
  | (Ret agents, self, t) =>
      (Ret (set_agents agents self),
       (t ++ [EvLog INFO "Delegator initialized with %d agents"
                [VInt (Z.of_nat (size agents))]])%list)
  | (Raise e, _, t) => (Raise e, t)
  end.

(** Lines 39-43 *)
Definition available_agents (self : Delegator) (upload_state : bool)
  : list string :=
  name <$> List.filter
             (λ agent_info,
                negb (upload_required agent_info && negb upload_state))
             (config_agents (config self)).

(** Lines 46-50 *)
Definition described (self : Delegator) (available_agents : list string)
  : list agent_info :=
  List.filter (λ agent_info, bool_decide (name agent_info ∈ available_agents))
    (config_agents (config self)).

Definition description_line (agent_info : agent_info) : string :=
  "- " ++ name agent_info ++ ": " ++ description agent_info.

Definition agent_descriptions (self : Delegator)
    (available_agents : list string) : string :=
  join nl (description_line <$> described self available_agents).

Definition system_prompt (agent_descriptions : string) : string :=
  "Your name is Morpheus. "
  ++ "Your primary function is to select the correct agent based on the user's input. "
  ++ "You MUST use the 'select_agent' function to select an agent. "
  ++ "Available agents and their descriptions: " ++ agent_descriptions ++ nl
  ++ "Analyze the user's input and select the most appropriate agent. ".

Definition get_delegator_response (prompt : pyval) (upload_state : bool)
  : M Delegator pyval :=
  self ← get;
  let available_agents := available_agents self upload_state in
  log INFO "Available agents: {available_agents}"
    [VList (VStr <$> available_agents)];;
  let agent_descriptions := agent_descriptions self available_agents in
  let system_prompt := system_prompt agent_descriptions in
  emit (EvSelectInvoke system_prompt prompt available_agents);;
  result ← lift (bind_tools_invoke (llm self) available_agents
                   system_prompt prompt);
  let tool_calls := tool_calls result in
  if negb (truthy tool_calls) then
    raise (Exc ValueError "No agent was selected by the model.")
  else
    selected_agent ← lift (getitem0 tool_calls);
    log INFO "Selected agent: {selected_agent}" [selected_agent];;
    args ← lift (get_method selected_agent "args" VNone);
    selected_agent_name ← lift (get_method args "agent" VNone);
    mret (VDict {[ "agent" := selected_agent_name ]}).

(** [agent.chat(request)] on the object that the registry holds under
    [agent_name]: what [chat] does to the agent stays in the registry. *)
Definition call_chat (agent_name : string) (agent : A)
    (request : ChatRequest) : M Delegator pyval :=
  λ self,
    match agent_chat request agent with
    | (o, agent', t) =>
        (o, set_agents (<[agent_name := agent']> (agents self)) self,
         EvAgentChat agent_name :: t)
    end.

(** [agent = self.agents.get(agent_name)] followed by [if agent:]: a
    missing name gives [None], which is false like an agent whose
    truth value is false. *)
Definition if_agent (agent : option A) : option A :=
  match agent with
  | Some a => if agent_bool a then Some a else None
  | None => None
  end.

Definition delegate_chat (agent_name : string) (request : ChatRequest)
  : M Delegator pyval :=
  log INFO "Attempting to delegate chat to agent: {agent_name}"
    [VStr agent_name];;
  self ← get;
  match if_agent (agents self !! agent_name) with
  | Some agent =>
      log INFO "Successfully found agent: {agent_name}" [VStr agent_name];;
      try_except
        (result ← call_chat agent_name agent request;
         log INFO "Chat delegation to {agent_name} completed successfully"
           [VStr agent_name];;
         log INFO "Response from {agent_name}: {result}"
           [VStr agent_name; result];;
         mret (VTuple [VStr agent_name; result]))
        any_Exception
        (λ e,
           log ERROR "Error during chat delegation to {agent_name}: {str(e)}"
             [VStr agent_name; VStr (exc_str e)];;
           mret (VTuple [VDict {[ "error" :=
                                    VStr ("Chat delegation to " ++ agent_name
                                          ++ " failed") ]};
                         VInt 500]))
  | None =>
      log WARNING "Attempted to delegate to non-existent agent: {agent_name}"
        [VStr agent_name];;
      mret (VTuple [VDict {[ "error" :=
                               VStr ("No such agent registered: "
                                     ++ agent_name) ]};
                    VInt 400])
  end.

Context `{!Routable A}.

(** [method(request)] on the object that the registry holds under
    [agent_name]. *)
Definition call_method (agent_name : string) (agent : A)
    (method : ChatRequest → M A pyval) (request : ChatRequest)
  : M Delegator pyval :=
  λ self,
    match method request agent with
    | (o, agent', t) =>
        (o, set_agents (<[agent_name := agent']> (agents self)) self, t)
    end.

Definition delegate_route (agent_name : string) (request : ChatRequest)
    (method_name : string) : M Delegator pyval :=
  self ← get;
  match if_agent (agents self !! agent_name) with
  | Some agent =>
      match agent_getattr agent method_name with
      | Some method =>
          log INFO "Delegating %s to agent: %s"
            [VStr method_name; VStr agent_name];;
          call_method agent_name agent method request
      | None =>
          log WARNING "Method %s not found in agent %s"
            [VStr method_name; VStr agent_name];;
          mret (VTuple [VDict {[ "error" :=
                                   VStr ("No such method '" ++ method_name
                                         ++ "' in agent '" ++ agent_name
                                         ++ "'") ]};
                        VInt 400])
      end
  | None =>
      log WARNING "Attempted to delegate to non-existent agent: %s"
        [VStr agent_name];;
      mret (VTuple [VDict {[ "error" := VStr "No such agent registered" ]};
                    VInt 400])
  end.

(** *** Vocabulary of the statements about the registry *)

(** What resolving and constructing one descriptor gives on its own:
    the instance, or the exception of the first step that fails. *)
Definition resolve_and_construct (agent_info : agent_info) (llm : LLM)
    (embeddings : Embeddings) : outcome A :=
  match import_module (path agent_info) with
  | Raise e => Raise e
  | Ret module =>
      match getattr module (class agent_info) with
      | Raise e => Raise e
      | Ret agent_class => agent_class agent_info llm embeddings
      end
  end.

Definition succeeded {B} (o : outcome B) : option B :=
  match o with Ret b => Some b | Raise _ => None end.

(** The instance that the descriptors named [n] leave behind: that of
    the last one among them that could be constructed. *)
Definition constructed_as (llm : LLM) (embeddings : Embeddings)
    (infos : list agent_info) (n : string) : option A :=
  last (omap (λ agent_info,
                if decide (name agent_info = n)
                then succeeded (resolve_and_construct agent_info llm embeddings)
                else None)
          infos).

Definition failures (llm : LLM) (embeddings : Embeddings)
    (infos : list agent_info) : list agent_info :=
  List.filter
    (λ agent_info,
       bool_decide
         (succeeded (resolve_and_construct agent_info llm embeddings) = None))
    infos.

End Methods.

End Delegator.

(** ** Vocabulary of the statements about the agents *)

(** The address that a search for [term] requests. *)
Definition search_url (term : string) : string :=
  "https://www.google.com/search?q=" ++ term.

(** The term a call of [perform_search] searches for: the one given,
    else the one stored. *)
Definition effective_term (term : pyval)
    (self : RealtimeSearch.RealtimeSearchAgent) : pyval :=
  if is_None term then RealtimeSearch.last_search_term self else term.

(** The two messages that [synthesize_answer] sends to the model. *)
Definition synthesis_messages (str_of : pyval → string) (term : pyval)
    (results : string) : list (string * pyval) :=
  [("system", VStr "You are a helpful assistant that synthesizes information from web search results to answer user queries.");
   ("user", VStr ("Based on the following search results for the query '"
                  ++ RealtimeSearch.fmt str_of term
                  ++ "', provide a concise and informative answer:"
                  ++ nl ++ nl ++ results))].

(** The keyword arguments that [handle_dollar_cost_average] passes on
    for the argument mapping [d]: the required ones as they are, the
    optional ones with their defaults. *)
Definition create_kwargs (d : gmap string pyval) : list (string * pyval) :=
  [("token_address", default VNone (d !! "token_address"));
   ("amount", default VNone (d !! "amount"));
   ("interval_type", default VNone (d !! "interval_type"));
   ("total_periods", default VNone (d !! "total_periods"));
   ("min_price", default VNone (d !! "min_price"));
   ("max_price", default VNone (d !! "max_price"));
   ("max_slippage", default (VFloat 1 (-2)) (d !! "max_slippage"));
   ("gasless", default (VBool false) (d !! "gasless"))].

(** A reply of a DCA handler, when there is one, names no next-turn
    agent. *)
Definition no_next_turn (o : outcome DCA.reply) : Prop :=
  match o with
  | Ret (_, _, next_turn_agent) => next_turn_agent = VNone
  | Raise _ => True
  end.

(** What [handle_request] sends as the user's message, and the two
    messages of its completion call. *)
Definition user_content (message : pyval) : pyval :=
  match message with
  | VDict d => default (VStr "") (d !! "content")
  | _ => message
  end.

Definition dca_prompt (message : pyval) : list (string * pyval) :=
  [("system", VStr DCA.system_content); ("user", user_content message)].

(** A completion result whose first choice is the message [message]. *)
Definition first_message (result : pyval) (message : gmap string pyval)
  : Prop :=
  ∃ (r choice0 : gmap string pyval) (rest : list pyval),
    result = VDict r
    ∧ r !! "choices" = Some (VList (VDict choice0 :: rest))
    ∧ choice0 !! "message" = Some (VDict message).


(** Request data that carries a prompt mapping with the content
    [term]. *)
Definition asks_for (request : ChatRequest) (term : pyval) : Prop :=
  ∃ data prompt : gmap string pyval,
    req_dict request = Ret (VDict data)
    ∧ data !! "prompt" = Some (VDict prompt)
    ∧ prompt !! "content" = Some term.

(** ** The chat boundary

    What the interface description promises of every [chat]: on success
    a mapping with the keys [role], [content] and [next_turn_agent], on
    failure a pair of an [{"error": ...}] body and a status code. *)

Definition is_chat_success (v : pyval) : bool :=
  match v with
  | VDict d =>
      bool_decide (dom d = ({[ "role"; "content"; "next_turn_agent" ]}
                              : gset string))
  | _ => false
  end.

Definition is_chat_failure (v : pyval) : bool :=
  match v with
  | VTuple [VDict d; VInt status] =>
      bool_decide (dom d = ({[ "error" ]} : gset string))
      && (100 <=? status)%Z && (status <? 600)%Z
  | _ => false
  end.

Definition chat_contract (v : pyval) : bool :=
  is_chat_success v || is_chat_failure v.

(** The shape that [RealtimeSearchAgent.chat] gives a success. *)
Definition is_role_content (v : pyval) : bool :=
  match v with
  | VDict d => bool_decide (dom d = ({[ "role"; "content" ]} : gset string))
  | _ => false
  end.

Definition status_of (v : pyval) : option Z :=
  match v with
  | VTuple [_; VInt status] => Some status
  | _ => None
  end.

(** The pair of an [{"error": msg}] body and a status code. *)
Definition error_pair (msg : string) (status : Z) : pyval :=
  VTuple [VDict {[ "error" := VStr msg ]}; VInt status].

(** The places inside the [try] of [RealtimeSearchAgent.chat] where an
    exception [e] can come up: reading the request data, looking for
    the prompt, taking the prompt and its content, the search, the
    synthesis. *)
Inductive search_chat_raises
    (requests_get : string → string → outcome HttpResponse)
    (find_all_g : string → list string) (str_of : pyval → string)
    (request : ChatRequest) (self : RealtimeSearch.RealtimeSearchAgent)
    (e : exc) : Prop :=
| SearchRaisesDict :
    req_dict request = Raise e →
    search_chat_raises requests_get find_all_g str_of request self e
| SearchRaisesContains data :
    req_dict request = Ret data →
    contains "prompt" data = Raise e →
    search_chat_raises requests_get find_all_g str_of request self e
| SearchRaisesPrompt data :
    req_dict request = Ret data →
    contains "prompt" data = Ret true →
    getitem data "prompt" = Raise e →
    search_chat_raises requests_get find_all_g str_of request self e
| SearchRaisesContent data prompt :
    req_dict request = Ret data →
    contains "prompt" data = Ret true →
    getitem data "prompt" = Ret prompt →
    getitem prompt "content" = Raise e →
    search_chat_raises requests_get find_all_g str_of request self e
| SearchRaisesSearch data prompt term self1 t1 :
    req_dict request = Ret data →
    contains "prompt" data = Ret true →
    getitem data "prompt" = Ret prompt →
    getitem prompt "content" = Ret term →
    RealtimeSearch.perform_search requests_get find_all_g str_of term self
    = (Raise e, self1, t1) →
    search_chat_raises requests_get find_all_g str_of request self e
| SearchRaisesSynthesis data prompt term results self1 t1 self2 t2 :
    req_dict request = Ret data →
    contains "prompt" data = Ret true →
    getitem data "prompt" = Ret prompt →
    getitem prompt "content" = Ret term →
    RealtimeSearch.perform_search requests_get find_all_g str_of term self
    = (Ret results, self1, t1) →
    RealtimeSearch.synthesize_answer str_of term results self1
    = (Raise e, self2, t2) →
    search_chat_raises requests_get find_all_g str_of request self e.

(** The same for the [try] of [DCAAgent.chat]: reading the request
    data, looking for the prompt, taking it, handling it. *)
Inductive dca_chat_raises
    (handle_request : pyval → M DCA.DCAAgent DCA.reply)
    (request : ChatRequest) (self : DCA.DCAAgent) (e : exc) : Prop :=
| DcaRaisesJson :
    req_get_json request = Raise e →
    dca_chat_raises handle_request request self e
| DcaRaisesContains data :
    req_get_json request = Ret data →
    truthy data = true →
    contains "prompt" data = Raise e →
    dca_chat_raises handle_request request self e
| DcaRaisesPrompt data :
    req_get_json request = Ret data →
    truthy data = true →
    contains "prompt" data = Ret true →
    getitem data "prompt" = Raise e →
    dca_chat_raises handle_request request self e
| DcaRaisesRequest data prompt self1 t1 :
    req_get_json request = Ret data →
    truthy data = true →
    contains "prompt" data = Ret true →
    getitem data "prompt" = Ret prompt →
    handle_request prompt self = (Raise e, self1, t1) →
    dca_chat_raises handle_request request self e.

(** ** A deployment used for the examples

    The registry of a running delegator holds instances of several
    classes.  [registered] is their union for a configuration of three
    descriptors: the two agents above and one class that offers no [chat]
    method. *)

Module Scenario.

Inductive registered : Type :=
| Search (a : RealtimeSearch.RealtimeSearchAgent)
| Dca (a : DCA.DCAAgent)
| NoChat (cls : string).

Definition requests_get_ok (url user_agent : string) : outcome HttpResponse :=
  Ret {| status_code := 200; reason := "OK"; url := url;
         text := "<html></html>" |}.

Definition requests_get_down (url user_agent : string)
  : outcome HttpResponse :=
  Raise (Exc ConnectionError "Max retries exceeded").

Definition find_all_g (html : string) : list string :=
  ["Rocq is a proof assistant"].

Definition str_of (v : pyval) : string :=
  match v with
  | VNone => "None"
  | VBool true => "True"
  | VBool false => "False"
  | _ => "<object>"
  end.

Definition json_loads (s : string) : outcome pyval :=
  if String.eqb s "{}" then Ret (VDict ∅)
  else Raise (Exc ValueError "Expecting value").

Definition tool_ok (args : pyval) : outcome (pyval * pyval) :=
  Ret (VDict {[ "strategy_id" := VStr "s-1" ]}, VStr "assistant").

Definition create_ok (kwargs : list (string * pyval))
  : outcome (pyval * pyval) :=
  Ret (VDict {[ "strategy_id" := VStr "s-1" ]}, VStr "assistant").

(** A model that answers in plain text and, asked to select, names
    [choice]; with [choice = None] it makes no tool call. *)
Definition model (choice : option string) : LLM :=
  {| invoke := λ _, Ret {| content := " An answer. "; tool_calls := VList [] |};
     bind_tools_invoke := λ _ _ _,
       Ret {| content := "";
              tool_calls :=
                match choice with
                | Some n =>
                    VList [VDict {[ "name" := VStr "select_agent";
                                    "args" := VDict {[ "agent" := VStr n ]} ]}]
                | None => VList []
                end |};
     create_chat_completion := λ _ _,
       Ret (VDict {[ "choices" :=
                       VList [VDict {[ "message" :=
                                         VDict {[ "content" := VStr "hello" ]}
                             ]}] ]}) |}.

Definition the_embeddings : Embeddings := EmbeddingsHandle "nomic-embed-text".

Definition search_info : agent_info :=
  {| name := "realtime search agent";
     path := "src.agents.realtime_search.agent";
     class := "RealtimeSearchAgent";
     description := "Searches the web for current information";
     upload_required := false |}.

Definition dca_info : agent_info :=
  {| name := "dca agent";
     path := "src.agents.dca_agent.agent";
     class := "DCAAgent";
     description := "Creates and manages dollar cost averaging strategies";
     upload_required := false |}.

Definition rag_info : agent_info :=
  {| name := "general purpose and context-based rag agent";
     path := "src.agents.rag.agent";
     class := "RagAgent";
     description := "Answers questions about an uploaded document";
     upload_required := true |}.

Definition the_config : Config :=
  {| config_agents := [search_info; dca_info; rag_info] |}.

Definition chat_agent (requests_get : string → string → outcome HttpResponse)
    (request : ChatRequest) : M registered pyval :=
  λ agent,
    match agent with
    | Search a =>
        match RealtimeSearch.chat requests_get find_all_g str_of request a with
        | (o, a', t) => (o, Search a', t)
        end
    | Dca a =>
        match DCA.chat create_ok tool_ok tool_ok tool_ok json_loads str_of
                request a with
        | (o, a', t) => (o, Dca a', t)
        end
    | NoChat cls =>
        (Raise (Exc AttributeError
                  ("'" ++ cls ++ "' object has no attribute 'chat'")),
         agent, [])
    end.

#[export] Instance registered_agent : Agent registered :=
  {| agent_chat := chat_agent requests_get_ok;
     agent_bool := λ _, true |}.

(** The importer of a host on which the [cdp] package is not installed:
    importing the DCA agent's module fails. *)
Definition import_module (p : string)
  : outcome (gmap string (Delegator.agent_class (A := registered))) :=
  if String.eqb p "src.agents.realtime_search.agent" then
    Ret {[ "RealtimeSearchAgent" :=
             λ info llm emb, Ret (Search (RealtimeSearch.__init__ info llm emb)) ]}
  else if String.eqb p "src.agents.dca_agent.agent" then
    Raise (Exc ImportError "No module named 'cdp'")
  else if String.eqb p "src.agents.rag.agent" then
    Ret {[ "RagAgent" := λ _ _ _, Ret (NoChat "RagAgent") ]}
  else Raise (Exc ImportError ("No module named '" ++ p ++ "'")).

Definition the_delegator (choice : option string)
  : outcome (Delegator.Delegator (A := registered)) * list event :=
  Delegator.__init__ import_module the_config (model choice) the_embeddings.

Definition prompt_request (term : pyval) : ChatRequest :=
  let data := VDict {[ "prompt" := VDict {[ "role" := VStr "user";
                                            "content" := term ]} ]} in
  {| req_dict := Ret data; req_get_json := Ret data |}.

Definition empty_request : ChatRequest :=
  {| req_dict := Ret (VDict ∅); req_get_json := Ret (VDict ∅) |}.

(** A request whose prompt is a plain string. *)
Definition text_request (prompt : string) : ChatRequest :=
  let data := VDict {[ "prompt" := VStr prompt ]} in
  {| req_dict := Ret data; req_get_json := Ret data |}.

Definition a_search_agent : RealtimeSearch.RealtimeSearchAgent :=
  RealtimeSearch.__init__ search_info (model None) the_embeddings.

Definition a_dca_agent : DCA.DCAAgent :=
  {| DCA.config := dca_info; DCA.llm := model None;
     DCA.embeddings := the_embeddings; DCA.client := DCA.CdpClient;
     DCA.tools_provided := VList [];
     DCA._sync_task := VNone;
     DCA._executors := ∅;
     DCA.function_handlers :=
       {[ "handle_dollar_cost_average" := DCA.self_handle_dollar_cost_average;
          "handle_pause_dca_strategy" := DCA.self_handle_pause_dca_strategy;
          "handle_resume_dca_strategy" := DCA.self_handle_resume_dca_strategy;
          "handle_cancel_dca_strategy" := DCA.self_handle_cancel_dca_strategy
       ]} |}.

(** The delegator that [the_delegator] builds: the DCA agent is missing
    from its registry. *)
Definition running (choice : option string)
  : Delegator.Delegator (A := registered) :=
  {| Delegator.config := the_config;
     Delegator.llm := model choice;
     Delegator.embeddings := the_embeddings;
     Delegator.agents :=
       {[ "realtime search agent" :=
            Search (RealtimeSearch.__init__ search_info (model choice)
                      the_embeddings);
          "general purpose and context-based rag agent" := NoChat "RagAgent"
       ]} |}.

(** *** More of the deployment *)

(** [tools] functions that fail, and one that returns a result without a
    strategy identifier. *)
Definition create_invalid (kwargs : list (string * pyval))
  : outcome (pyval * pyval) :=
  Raise (Exc ValidationError "Amount must be positive").

Definition create_no_id (kwargs : list (string * pyval))
  : outcome (pyval * pyval) :=
  Ret (VDict ∅, VStr "assistant").

Definition tool_not_found (strategy_id : pyval) : outcome (pyval * pyval) :=
  Raise (Exc StrategyNotFoundError "Strategy not found").

(** A model that cannot be reached. *)
Definition model_down : LLM :=
  {| invoke := λ _, Raise (Exc ConnectionError "Connection refused");
     bind_tools_invoke := λ _ _ _,
       Raise (Exc ConnectionError "Connection refused");
     create_chat_completion := λ _ _,
       Raise (Exc ConnectionError "Connection refused") |}.



(** The DCA agent with another model behind it. *)
Definition dca_agent_of (llm : LLM) : DCA.DCAAgent :=
  {| DCA.config := dca_info; DCA.llm := llm;
     DCA.embeddings := the_embeddings; DCA.client := DCA.CdpClient;
     DCA.tools_provided := VList [];
     DCA._sync_task := VNone;
     DCA._executors := ∅;
     DCA.function_handlers := DCA.function_handlers a_dca_agent |}.

(** Arguments of a complete strategy, and of one to act on. *)
Definition strategy_args : gmap string pyval :=
  {[ "token_address" := VStr "0xC02a";
     "amount" := VInt 100;
     "interval_type" := VStr "weekly" ]}.

Definition id_args : gmap string pyval := {[ "strategy_id" := VStr "s-1" ]}.

(** A selection model that answers with the tool calls [calls], and the
    delegator of the deployment with a model [llm] behind it. *)
Definition model_answering (calls : pyval) : LLM :=
  {| invoke := λ _, Ret {| content := ""; tool_calls := VList [] |};
     bind_tools_invoke := λ _ _ _,
       Ret {| content := ""; tool_calls := calls |};
     create_chat_completion := λ _ _, Ret (VDict ∅) |}.

Definition running_with (llm : LLM)
  : Delegator.Delegator (A := registered) :=
  {| Delegator.config := the_config;
     Delegator.llm := llm;
     Delegator.embeddings := the_embeddings;
     Delegator.agents :=
       {[ "realtime search agent" :=
            Search (RealtimeSearch.__init__ search_info llm the_embeddings);
          "general purpose and context-based rag agent" := NoChat "RagAgent"
       ]} |}.

(** A configuration that lists the name of the document agent twice,
    the second time without the upload requirement, and a delegator
    configured with it. *)
Definition rag_open_info : agent_info :=
  {| name := "general purpose and context-based rag agent";
     path := "src.agents.rag.agent";
     class := "RagAgent";
     description := "Answers general questions";
     upload_required := false |}.

Definition twice_config : Config :=
  {| config_agents := [rag_info; rag_open_info] |}.

Definition running_twice : Delegator.Delegator (A := registered) :=
  {| Delegator.config := twice_config;
     Delegator.llm := model None;
     Delegator.embeddings := the_embeddings;
     Delegator.agents :=
       {[ "general purpose and context-based rag agent" := NoChat "RagAgent"
       ]} |}.

(** A configuration of which nothing can be loaded on this host. *)
Definition dca_only : Config := {| config_agents := [dca_info] |}.

(** Of the attributes of the deployed objects the examples route to
    [chat] alone, which the two agent classes define and the third class
    lacks; no other attribute name is listed. *)
#[export] Instance registered_routable : Routable registered :=
  {| agent_getattr := λ agent method_name,
       match agent with
       | NoChat _ => None
       | _ =>
           if String.eqb method_name "chat"
           then Some (chat_agent requests_get_ok)
           else None
       end |}.

End Scenario.

(** * Properties *)

Ltac unfold_M :=
  unfold mbind, M_bind, mret, M_ret, get, put, log, emit, lift, raise,
    try_except, try_excepts in *.

(** ** The realtime search agent *)

Section RealtimeSearchProperties.

Import RealtimeSearch.

Variable requests_get : string → string → outcome HttpResponse.
Variable find_all_g : string → list string.
Variable str_of : pyval → string.

#[local] Abbreviation perform_search :=
  (perform_search requests_get find_all_g str_of).
#[local] Abbreviation search_for :=
  (search_for requests_get find_all_g str_of).

(** [search_for] issues exactly one GET, whatever comes back. *)
Lemma search_for_one_get term self :
  length (List.filter is_http_get (search_for term self).2) = 1%nat.
Proof.
  unfold RealtimeSearch.search_for. unfold_M. cbn.
  destruct (requests_get _ _) as [r|e]; cbn.
  - unfold raise_for_status. unfold_M.
    repeat case_match; simplify_eq/=; done.
  - destruct (is_RequestException _); done.
Qed.

(** The searching part never writes to the agent, whether the request
    succeeds, fails with a request exception (caught) or fails otherwise
    (propagated). *)
Lemma search_for_frame term self : (search_for term self).1.2 = self.
Proof.
  unfold RealtimeSearch.search_for. unfold_M. cbn.
  destruct (requests_get _ _) as [r|e]; cbn.
  - unfold raise_for_status. unfold_M.
    repeat case_match; simplify_eq/=; done.
  - destruct (is_RequestException _); done.
Qed.

(** With a term given, the search itself (and so every network access)
    starts from the agent that already stores the new term. *)
Lemma perform_search_given term self :
  is_None term = false →
  perform_search term self = search_for term (set_last_search_term term self).
Proof.
  intros Hterm. unfold RealtimeSearch.perform_search. unfold_M.
  rewrite Hterm. cbn.
  destruct (search_for term _) as [[o s] t]. done.
Qed.

(** With no term given but one stored, the stored term is searched. *)
Lemma perform_search_reuse self :
  is_None (last_search_term self) = false →
  perform_search VNone self = search_for (last_search_term self) self.
Proof.
  intros Hprior. unfold RealtimeSearch.perform_search. unfold_M. cbn.
  rewrite Hprior.
  destruct (search_for _ self) as [[o s] t]. done.
Qed.

(** With neither a term given nor one stored, nothing is searched. *)
Lemma perform_search_nothing self :
  last_search_term self = VNone →
  perform_search VNone self
  = (Ret "Web search failed. Please provide a search term.", self,
     [EvLog WARNING "No search term available for web search" []]).
Proof.
  intros Hnone. unfold RealtimeSearch.perform_search. unfold_M. cbn.
  rewrite Hnone. reflexivity.
Qed.

(** C7. Called with no search term ([None]) while no earlier term is
    stored, [perform_search] returns the fixed text "Web search failed.
    Please provide a search term." and its only effect is the warning it
    logs: no HTTP GET is issued and the agent is unchanged. *)
Theorem perform_search_without_term self :
  last_search_term self = VNone →
  perform_search VNone self
  = (Ret "Web search failed. Please provide a search term.", self,
     [EvLog WARNING "No search term available for web search" []])
  ∧ List.filter is_http_get (perform_search VNone self).2 = [].
Proof.
  intros Hnone. rewrite (perform_search_nothing self Hnone). done.
Qed.

(** The one GET of a search goes to the search address of its term. *)
Lemma search_for_get term self :
  List.filter is_http_get (search_for term self).2
  = [EvHttpGet (search_url (RealtimeSearch.fmt str_of term)) USER_AGENT].
Proof.
  unfold RealtimeSearch.search_for, search_url. unfold_M. cbn.
  destruct (requests_get _ _) as [r|e]; cbn.
  - unfold raise_for_status. unfold_M.
    repeat case_match; simplify_eq/=; done.
  - destruct (is_RequestException _); done.
Qed.

(** A search whose request fails: the text of the failure, or the
    exception itself when it is no request exception. *)
Lemma search_for_failure term self e :
  requests_get (search_url (RealtimeSearch.fmt str_of term)) USER_AGENT
  = Raise e →
  (search_for term self).1
  = (if is_RequestException (exc_cls e)
     then Ret ("Error performing web search: " ++ exc_str e)
     else Raise e, self).
Proof.
  intros Hget. unfold RealtimeSearch.search_for, search_url in *.
  unfold_M. cbn. rewrite Hget. cbn. by destruct (is_RequestException _).
Qed.

(** What [perform_search] comes to, by the term given and the term
    stored. *)
Lemma perform_search_cases term self :
  perform_search term self
  = if is_None term then
      if is_None (last_search_term self) then
        (Ret "Web search failed. Please provide a search term.", self,
         [EvLog WARNING "No search term available for web search" []])
      else search_for (last_search_term self) self
    else search_for term (set_last_search_term term self).
Proof.
  destruct (is_None term) eqn:Hterm.
  - destruct term; try discriminate.
    destruct (is_None (last_search_term self)) eqn:Hprior.
    + destruct (last_search_term self) eqn:Hl; try discriminate.
      by rewrite (perform_search_nothing self Hl).
    + by rewrite perform_search_reuse.
  - by rewrite perform_search_given.
Qed.

(** C10. [perform_search] writes to no field but [last_search_term].
    Given a term that is not [None] it stores that term and then runs
    the search for it on the agent that already stores it; given [None]
    with a term stored it runs the search for the stored term and leaves
    it stored; given [None] with nothing stored it searches nothing.
    The search is the only network activity: one GET, to the address of
    the term searched for.  It never writes the agent, so a term that
    was given stays stored when the request fails, be the failure
    caught and returned as text or raised on. *)
Theorem perform_search_frame term self :
  let self' := (perform_search term self).1.2 in
  config self' = config self
  ∧ llm self' = llm self
  ∧ embeddings self' = embeddings self
  ∧ last_search_term self'
    = (if is_None term then last_search_term self else term)
  ∧ perform_search term self
    = (if is_None term then
         if is_None (last_search_term self) then
           (Ret "Web search failed. Please provide a search term.", self,
            [EvLog WARNING "No search term available for web search" []])
         else search_for (last_search_term self) self
       else search_for term (set_last_search_term term self))
  ∧ List.filter is_http_get (perform_search term self).2
    = (if is_None (effective_term term self) then []
       else [EvHttpGet
               (search_url (RealtimeSearch.fmt str_of
                              (effective_term term self)))
               USER_AGENT])
  ∧ ∀ e,
      is_None (effective_term term self) = false →
      requests_get
        (search_url (RealtimeSearch.fmt str_of (effective_term term self)))
        USER_AGENT = Raise e →
      (perform_search term self).1
      = (if is_RequestException (exc_cls e)
         then Ret ("Error performing web search: " ++ exc_str e)
         else Raise e,
         if is_None term then self else set_last_search_term term self).
Proof.
  cbn zeta. rewrite perform_search_cases. unfold effective_term.
  destruct (is_None term) eqn:Hterm.
  - destruct (is_None (last_search_term self)) eqn:Hprior.
    + cbn. repeat split; try done.
    + rewrite search_for_frame, search_for_get.
      repeat split; try done. intros e _ Hget.
      by apply search_for_failure.
  - rewrite search_for_frame, search_for_get, Hterm.
    repeat split; try done. intros e _ Hget.
    by apply search_for_failure.
Qed.

End RealtimeSearchProperties.

(** ** The DCA agent *)

Section DCAProperties.

Import DCA.

Variable tools_handle_create_dca_strategy
  : list (string * pyval) → outcome (pyval * pyval).
Variable tools_handle_pause_dca_strategy : pyval → outcome (pyval * pyval).
Variable tools_handle_resume_dca_strategy : pyval → outcome (pyval * pyval).
Variable tools_handle_cancel_dca_strategy : pyval → outcome (pyval * pyval).
Variable json_loads : string → outcome pyval.
Variable str_of : pyval → string.

#[local] Abbreviation handle_dollar_cost_average :=
  (handle_dollar_cost_average tools_handle_create_dca_strategy str_of).
#[local] Abbreviation handle_request :=
  (handle_request tools_handle_create_dca_strategy
     tools_handle_pause_dca_strategy tools_handle_resume_dca_strategy
     tools_handle_cancel_dca_strategy json_loads str_of).
#[local] Abbreviation chat :=
  (chat tools_handle_create_dca_strategy
     tools_handle_pause_dca_strategy tools_handle_resume_dca_strategy
     tools_handle_cancel_dca_strategy json_loads str_of).

(** C6. For an argument mapping without the key [token_address],
    [handle_dollar_cost_average] raises [KeyError('token_address')]: the
    lookup fails while the arguments of the call are still being
    evaluated, neither [except] clause takes a [KeyError], and
    [tools.handle_create_dca_strategy] is not called. *)
Theorem handle_dollar_cost_average_missing_token_address
    (d : gmap string pyval) chain_id wallet_address self :
  d !! "token_address" = None →
  handle_dollar_cost_average (VDict d) chain_id wallet_address self
  = (Raise (Exc KeyError "'token_address'"), self, [])
  ∧ List.filter is_tool
      (handle_dollar_cost_average (VDict d) chain_id wallet_address self).2
    = [].
Proof.
  intros Hmissing.
  assert (handle_dollar_cost_average (VDict d) chain_id wallet_address self
          = (Raise (Exc KeyError "'token_address'"), self, [])) as Hrun.
  { unfold DCA.handle_dollar_cost_average. unfold_M. cbn.
    rewrite Hmissing. reflexivity. }
  rewrite Hrun. done.
Qed.

Lemma three_keys (role response next_turn_agent : pyval) :
  is_chat_success
    (VDict {[ "role" := role; "content" := response;
              "next_turn_agent" := next_turn_agent ]}) = true.
Proof.
  cbn. apply bool_decide_eq_true.
  by rewrite !dom_insert_L, dom_singleton_L, (assoc_L (∪)).
Qed.

Lemma error_body (msg : string) (status : Z) :
  (100 ≤ status < 600)%Z →
  is_chat_failure (VTuple [VDict {[ "error" := VStr msg ]}; VInt status])
  = true.
Proof.
  intros [Hlo Hhi]. cbn. rewrite dom_singleton_L, bool_decide_eq_true_2 by done.
  cbn. apply andb_true_iff. split; [by apply Z.leb_le | by apply Z.ltb_lt].
Qed.

(** [DCAAgent.chat] keeps to the chat boundary on every request. *)
Lemma dca_chat_contract request self :
  ∃ v self' t, chat request self = (Ret v, self', t) ∧ chat_contract v = true.
Proof.
  unfold DCA.chat, chat_contract. unfold_M. cbn.
  destruct (req_get_json request) as [data|e]; cbn.
  2: { eexists _, _, _. split; [done|]. rewrite error_body by lia.
       apply orb_true_r. }
  destruct (truthy data); cbn.
  2: { eexists _, _, _. split; [done|]. rewrite error_body by lia.
       apply orb_true_r. }
  destruct (contains "prompt" data) as [[|]|e]; cbn.
  2,3: eexists _, _, _; (split; [done|]); rewrite error_body by lia;
       apply orb_true_r.
  destruct (getitem data "prompt") as [prompt|e]; cbn.
  2: { eexists _, _, _. split; [done|]. rewrite error_body by lia.
       apply orb_true_r. }
  destruct (handle_request prompt self)
    as [[[[[response role] next_turn_agent]|e] self'] t]; cbn.
  - eexists _, _, _. split; [done|]. by rewrite three_keys.
  - eexists _, _, _. split; [done|]. rewrite error_body by lia.
    apply orb_true_r.
Qed.

End DCAProperties.

(** ** The delegator *)

Section DelegatorProperties.

Import Delegator.

Context {A : Type} `{Agent A}.
Variable import_module : string → outcome (gmap string (agent_class (A := A))).

Implicit Types (self : Delegator (A := A)) (request : ChatRequest).

(** *** Dispatch *)

(** C1. For a name that the registry does not hold, [delegate_chat]
    returns the pair of an [{"error": ...}] body and status 400; it
    logs two lines, calls the [chat] method of no agent and leaves the
    delegator, its registry and every agent in it as they were. *)
Theorem delegate_chat_unknown_agent self agent_name request :
  agents self !! agent_name = None →
  delegate_chat agent_name request self
  = (Ret (VTuple [VDict {[ "error" := VStr ("No such agent registered: "
                                            ++ agent_name) ]};
                  VInt 400]),
     self,
     [EvLog INFO "Attempting to delegate chat to agent: {agent_name}"
        [VStr agent_name];
      EvLog WARNING
        "Attempted to delegate to non-existent agent: {agent_name}"
        [VStr agent_name]])
  ∧ List.filter is_agent_chat (delegate_chat agent_name request self).2 = [].
Proof.
  intros Hnone.
  assert (delegate_chat agent_name request self
          = (Ret (VTuple [VDict {[ "error" :=
                                     VStr ("No such agent registered: "
                                           ++ agent_name) ]};
                          VInt 400]),
             self,
             [EvLog INFO "Attempting to delegate chat to agent: {agent_name}"
                [VStr agent_name];
              EvLog WARNING
                "Attempted to delegate to non-existent agent: {agent_name}"
                [VStr agent_name]])) as Hrun.
  { unfold delegate_chat. unfold_M. cbn. rewrite Hnone. reflexivity. }
  rewrite Hrun. done.
Qed.

(** C2. When the registry holds an agent under the name and the [chat]
    method that [delegate_chat] invokes on it raises, [delegate_chat]
    returns normally, with the pair of an [{"error": ...}] body and
    status 500: the exception does not leave [delegate_chat].  What
    [chat] did to the agent before it raised stays in the registry. *)
Theorem delegate_chat_agent_raises self agent_name request agent e agent' t :
  agents self !! agent_name = Some agent →
  agent_bool agent = true →
  agent_chat request agent = (Raise e, agent', t) →
  delegate_chat agent_name request self
  = (Ret (VTuple [VDict {[ "error" := VStr ("Chat delegation to "
                                            ++ agent_name ++ " failed") ]};
                  VInt 500]),
     set_agents (<[agent_name := agent']> (agents self)) self,
     ([EvLog INFO "Attempting to delegate chat to agent: {agent_name}"
         [VStr agent_name];
       EvLog INFO "Successfully found agent: {agent_name}" [VStr agent_name];
       EvAgentChat agent_name] ++ t ++
      [EvLog ERROR "Error during chat delegation to {agent_name}: {str(e)}"
         [VStr agent_name; VStr (exc_str e)]])%list).
Proof.
  intros Hsome Hbool Hchat.
  unfold delegate_chat, call_chat. unfold_M. cbn.
  rewrite Hsome. cbn. rewrite Hbool, Hchat. cbn.
  reflexivity.
Qed.

(** A [chat] that returns is relayed as [(agent_name, result)]. *)
Lemma delegate_chat_agent_returns self agent_name request agent v agent' t :
  agents self !! agent_name = Some agent →
  agent_bool agent = true →
  agent_chat request agent = (Ret v, agent', t) →
  (delegate_chat agent_name request self).1
  = (Ret (VTuple [VStr agent_name; v]),
     set_agents (<[agent_name := agent']> (agents self)) self).
Proof.
  intros Hsome Hbool Hchat.
  unfold delegate_chat, call_chat. unfold_M. cbn.
  rewrite Hsome. cbn. rewrite Hbool, Hchat. reflexivity.
Qed.

(** [delegate_chat] itself never raises. *)
Lemma delegate_chat_total self agent_name request :
  ∃ v, (delegate_chat agent_name request self).1.1 = Ret v.
Proof.
  unfold delegate_chat, call_chat. unfold_M. cbn.
  destruct (if_agent _) as [agent|]; cbn; [|eauto].
  destruct (agent_chat request agent) as [[[v|e] agent'] t]; cbn; eauto.
Qed.

(** *** Selection *)

(** A name is a candidate exactly when some descriptor of that name has
    its upload requirement met. *)
Lemma elem_of_available_agents self upload_state n :
  n ∈ available_agents self upload_state
  ↔ ∃ agent_info, agent_info ∈ config_agents (config self)
                  ∧ name agent_info = n
                  ∧ (upload_required agent_info = true → upload_state = true).
Proof.
  unfold available_agents. rewrite list_elem_of_fmap. split.
  - intros (info & -> & Hin). apply list_elem_of_In, filter_In in Hin.
    destruct Hin as [Hin Hok]. exists info.
    split; [by apply list_elem_of_In|]. split; [done|].
    intros Hreq. rewrite Hreq in Hok. by destruct upload_state.
  - intros (info & Hin & <- & Hok). exists info. split; [done|].
    apply list_elem_of_In, filter_In. split; [by apply list_elem_of_In|].
    destruct (upload_required info); [|done].
    by rewrite Hok.
Qed.

Lemma elem_of_described self available agent_info :
  agent_info ∈ described self available
  ↔ agent_info ∈ config_agents (config self) ∧ name agent_info ∈ available.
Proof.
  unfold described.
  rewrite list_elem_of_In, filter_In, <- list_elem_of_In, bool_decide_eq_true.
  done.
Qed.

(** Two descriptors of one configuration with unique names are the same
    descriptor when they have the same name. *)
Lemma unique_name (infos : list agent_info) i j :
  NoDup (name <$> infos) → i ∈ infos → j ∈ infos → name i = name j → i = j.
Proof.
  induction infos as [|k infos IH]; cbn; [by intros _ ?%elem_of_nil|].
  rewrite NoDup_cons, !elem_of_cons.
  intros [Hfresh Hnodup] [->|Hi] [->|Hj] Heq; auto.
  - destruct Hfresh. rewrite Heq. by apply list_elem_of_fmap_2.
  - destruct Hfresh. rewrite <- Heq. by apply list_elem_of_fmap_2.
Qed.

(** C3. In a configuration whose descriptor names are unique, the name
    of a descriptor is in the candidate list exactly when its upload
    requirement is met by the upload state, and the descriptor is among
    those described to the model under the same condition.  So without
    an upload, a descriptor with [upload_required] set is neither a
    candidate nor described. *)
Theorem available_agents_upload_gate self upload_state agent_info :
  NoDup (name <$> config_agents (config self)) →
  agent_info ∈ config_agents (config self) →
  (name agent_info ∈ available_agents self upload_state
   ↔ (upload_required agent_info = true → upload_state = true))
  ∧ (agent_info ∈ described self (available_agents self upload_state)
     ↔ (upload_required agent_info = true → upload_state = true))
  ∧ (upload_state = false → upload_required agent_info = true →
     (name agent_info ∉ available_agents self upload_state)
     ∧ (agent_info ∉ described self (available_agents self upload_state))).
Proof.
  intros Hnodup Hin.
  assert (name agent_info ∈ available_agents self upload_state
          ↔ (upload_required agent_info = true → upload_state = true))
    as Hgate.
  { rewrite elem_of_available_agents. split.
    - intros (other & Hother & Hname & Hok).
      by rewrite <- (unique_name _ _ _ Hnodup Hother Hin Hname).
    - intros Hok. by exists agent_info. }
  assert (agent_info ∈ described self (available_agents self upload_state)
          ↔ (upload_required agent_info = true → upload_state = true))
    as Hdescribed.
  { rewrite elem_of_described, Hgate. tauto. }
  split; [done|]. split; [done|].
  intros -> Hreq. rewrite Hgate, Hdescribed. split; intros Hok.
  all: by specialize (Hok Hreq).
Qed.

(** What the model is sent: one request, carrying the description block
    inside the system prompt and the candidate list as the enumeration
    of the [select_agent] tool. *)
Lemma get_delegator_response_sends self prompt upload_state :
  List.filter is_select_invoke
    (get_delegator_response prompt upload_state self).2
  = [EvSelectInvoke
       (system_prompt
          (agent_descriptions self (available_agents self upload_state)))
       prompt (available_agents self upload_state)].
Proof.
  unfold get_delegator_response. unfold_M. cbn.
  destruct (bind_tools_invoke _ _ _ _) as [result|e]; cbn; [|done].
  destruct (truthy (tool_calls result)); cbn; [|done].
  destruct (getitem0 _) as [call|e]; cbn; [|done].
  destruct (get_method call _ _) as [args|e]; cbn; [|done].
  destruct (get_method args _ _) as [n|e]; cbn; done.
Qed.

(** [get_delegator_response] reads the delegator and never writes it. *)
Lemma get_delegator_response_frame self prompt upload_state :
  (get_delegator_response prompt upload_state self).1.2 = self.
Proof.
  unfold get_delegator_response. unfold_M. cbn.
  destruct (bind_tools_invoke _ _ _ _) as [result|e]; cbn; [|done].
  destruct (truthy (tool_calls result)); cbn; [|done].
  destruct (getitem0 _) as [call|e]; cbn; [|done].
  destruct (get_method call _ _) as [args|e]; cbn; [|done].
  destruct (get_method args _ _) as [n|e]; cbn; done.
Qed.

(** C4. When the model answers without a tool call, i.e. its
    [tool_calls] is empty (or [None]), [get_delegator_response] raises
    [ValueError("No agent was selected by the model.")]: it returns no
    agent name, in particular not [DEFAULT_AGENT], and it has asked the
    model exactly once. *)
Theorem get_delegator_response_no_choice self prompt upload_state result :
  bind_tools_invoke (llm self) (available_agents self upload_state)
    (system_prompt
       (agent_descriptions self (available_agents self upload_state)))
    prompt = Ret result →
  truthy (tool_calls result) = false →
  get_delegator_response prompt upload_state self
  = (Raise (Exc ValueError "No agent was selected by the model."), self,
     [EvLog INFO "Available agents: {available_agents}"
        [VList (VStr <$> available_agents self upload_state)];
      EvSelectInvoke
        (system_prompt
           (agent_descriptions self (available_agents self upload_state)))
        prompt (available_agents self upload_state)])
  ∧ (get_delegator_response prompt upload_state self).1.1
    ≠ Ret (VDict {[ "agent" := VStr DEFAULT_AGENT ]}).
Proof.
  intros Hinvoke Hnone.
  assert (get_delegator_response prompt upload_state self
          = (Raise (Exc ValueError "No agent was selected by the model."),
             self,
             [EvLog INFO "Available agents: {available_agents}"
                [VList (VStr <$> available_agents self upload_state)];
              EvSelectInvoke
                (system_prompt
                   (agent_descriptions self
                      (available_agents self upload_state)))
                prompt (available_agents self upload_state)])) as Hrun.
  { unfold get_delegator_response. unfold_M. cbn.
    rewrite Hinvoke. cbn. rewrite Hnone. reflexivity. }
  rewrite Hrun. done.
Qed.

(** *** Building the registry *)

#[local] Abbreviation load_one := (load_one import_module).
#[local] Abbreviation load_agents_loop := (load_agents_loop import_module).
#[local] Abbreviation load_agents := (load_agents import_module).
#[local] Abbreviation resolve_and_construct :=
  (resolve_and_construct import_module).
#[local] Abbreviation constructed_as := (constructed_as import_module).
#[local] Abbreviation failures := (failures import_module).

(** One descriptor: the three steps of the [try] body succeed together
    or the first failure is raised, after the import was attempted. *)
Lemma load_one_run agent_info registry self :
  load_one agent_info registry self
  = match resolve_and_construct agent_info (llm self) (embeddings self) with
    | Ret agent_instance =>
        (Ret (<[name agent_info := agent_instance]> registry), self,
         [EvImport (path agent_info) (class agent_info);
          EvLog INFO "Loaded agent: %s" [VStr (name agent_info)]])
    | Raise e =>
        (Raise e, self, [EvImport (path agent_info) (class agent_info)])
    end.
Proof.
  unfold Delegator.load_one, Delegator.resolve_and_construct. unfold_M. cbn.
  destruct (import_module _) as [module|e]; cbn; [|done].
  destruct (getattr _ _) as [cls|e]; cbn; [|done].
  destruct (cls _ _ _) as [inst|e]; cbn; done.
Qed.

(** The loop over the descriptors always runs to its end. *)
Lemma load_agents_loop_run infos : ∀ registry self,
  ∃ registry' t,
    load_agents_loop infos registry self = (Ret registry', self, t)
    ∧ (∀ n, registry' !! n
            = match constructed_as (llm self) (embeddings self) infos n with
              | Some a => Some a
              | None => registry !! n
              end)
    ∧ length (List.filter is_error_log t)
      = length (failures (llm self) (embeddings self) infos)
    ∧ (size registry' ≤ size registry + length infos)%nat.
Proof.
  induction infos as [|info infos IH]; intros registry self.
  { exists registry, []. split; [done|]. split; [done|]. split; [done|].
    simpl length. lia. }
  cbn [Delegator.load_agents_loop]. unfold_M.
  rewrite load_one_run.
  unfold Delegator.constructed_as, Delegator.failures. cbn [omap list_omap List.filter].
  destruct (resolve_and_construct info _ _) as [inst|e] eqn:Hinst; cbn.
  - destruct (IH (<[name info := inst]> registry) self)
      as (registry' & t & -> & Hlookup & Herrors & Hsize).
    eexists _, _. split; [done|]. split; [|split].
    + intros n. rewrite Hlookup. unfold Delegator.constructed_as.
      destruct (decide (name info = n)) as [->|Hne]; cbn.
      * rewrite last_cons. destruct (last _); [done|].
        by rewrite lookup_insert_eq.
      * destruct (last _); [done|]. by rewrite lookup_insert_ne.
    + cbn. exact Herrors.
    + rewrite map_size_insert in Hsize. simpl length.
      destruct (registry !! name info); unfold id in Hsize; lia.
  - destruct (IH registry self)
      as (registry' & t & -> & Hlookup & Herrors & Hsize).
    eexists _, _. split; [done|]. split; [|split].
    + intros n. rewrite Hlookup. unfold Delegator.constructed_as.
      by destruct (decide (name info = n)).
    + cbn. by rewrite Herrors.
    + simpl length. lia.
Qed.

(** With unique names, a descriptor's instance is the one registered
    under its name. *)
Lemma constructed_as_unique llm embeddings infos agent_info :
  NoDup (name <$> infos) → agent_info ∈ infos →
  constructed_as llm embeddings infos (name agent_info)
  = succeeded (resolve_and_construct agent_info llm embeddings).
Proof.
  unfold Delegator.constructed_as.
  induction infos as [|info infos IH]; [by intros _ ?%elem_of_nil|].
  cbn. rewrite NoDup_cons, elem_of_cons. intros [Hfresh Hnodup] [->|Hin].
  - rewrite decide_True by done.
    assert (omap (λ i, if decide (name i = name info)
                       then succeeded (resolve_and_construct i llm embeddings)
                       else None) infos = []) as Hrest.
    { clear -Hfresh. induction infos as [|j infos IH]; [done|]. cbn.
      rewrite fmap_cons, not_elem_of_cons in Hfresh.
      destruct Hfresh as [Hne Hfresh].
      rewrite decide_False by done. auto. }
    destruct (succeeded _); cbn; by rewrite Hrest.
  - rewrite decide_False.
    + by apply IH.
    + intros Heq. destruct Hfresh. rewrite Heq. by apply list_elem_of_fmap_2.
Qed.

(** A name has an instance exactly when a descriptor of that name could
    be constructed. *)
Lemma constructed_as_is_Some llm embeddings infos n :
  is_Some (constructed_as llm embeddings infos n)
  ↔ ∃ agent_info,
      agent_info ∈ infos
      ∧ name agent_info = n
      ∧ is_Some (succeeded (resolve_and_construct agent_info llm embeddings)).
Proof.
  unfold Delegator.constructed_as. rewrite last_is_Some. split.
  - intros Hne. destruct (omap _ infos) as [|a rest] eqn:Homap; [done|].
    assert (a ∈ omap (λ i, if decide (name i = n)
                           then succeeded (resolve_and_construct i llm embeddings)
                           else None) infos) as Ha
      by (rewrite Homap; apply list_elem_of_here).
    apply list_elem_of_omap in Ha as (info & Hin & Hsome).
    exists info. destruct (decide (name info = n)); [|done].
    rewrite Hsome. eauto.
  - intros (info & Hin & Hname & [a Ha]) Hnil.
    assert (a ∈ omap (λ i, if decide (name i = n)
                           then succeeded (resolve_and_construct i llm embeddings)
                           else None) infos) as Hel.
    { apply list_elem_of_omap. exists info. split; [done|].
      by rewrite decide_True. }
    rewrite Hnil in Hel. by apply elem_of_nil in Hel.
Qed.

(** C8. [load_agents] always returns a registry.  Under each name it
    holds the instance of the descriptor of that name whose resolution
    and construction succeeded (the last such descriptor, should a name
    occur twice) and nothing else; every descriptor that failed is
    logged once as an error and left out, and the descriptors after it
    are still loaded.  The registry is at most as large as the
    configuration. *)
Theorem load_agents_registry config0 self :
  ∃ registry t,
    load_agents config0 self = (Ret registry, self, t)
    ∧ (∀ n, registry !! n
            = constructed_as (llm self) (embeddings self)
                (config_agents config0) n)
    ∧ length (List.filter is_error_log t)
      = length (failures (llm self) (embeddings self) (config_agents config0))
    ∧ (size registry ≤ length (config_agents config0))%nat.
Proof.
  destruct (load_agents_loop_run (config_agents config0) ∅ self)
    as (registry & t & Hrun & Hlookup & Herrors & Hsize).
  exists registry, t. split; [done|]. split; [|split; [done|]].
  - intros n. rewrite Hlookup, lookup_empty. by destruct (constructed_as _ _ _ _).
  - by rewrite map_size_empty in Hsize.
Qed.

End DelegatorProperties.

(** ** The chat boundary, agent by agent *)

Section ChatBoundary.

Variable requests_get : string → string → outcome HttpResponse.
Variable find_all_g : string → list string.
Variable str_of : pyval → string.

#[local] Abbreviation search_chat :=
  (RealtimeSearch.chat requests_get find_all_g str_of).

(** [RealtimeSearchAgent.chat] always returns: a mapping of [role] and
    [content] when the search and the synthesis went through, the 400
    pair when the request data has no prompt, and a pair with status 500
    when anything raised. *)
Lemma search_chat_shapes request self :
  ∃ v self' t,
    search_chat request self = (Ret v, self', t)
    ∧ (is_role_content v = true
       ∨ v = VTuple [VDict {[ "error" := VStr "Missing parameters" ]};
                     VInt 400]
       ∨ status_of v = Some 500).
Proof.
  unfold RealtimeSearch.chat. unfold_M. cbn.
  destruct (req_dict request) as [data|e]; cbn; [|by eauto 10].
  destruct (contains "prompt" data) as [[|]|e]; cbn; [|by eauto 10..].
  destruct (getitem data "prompt") as [prompt|e]; cbn; [|by eauto 10].
  destruct (getitem prompt "content") as [term|e]; cbn; [|by eauto 10].
  destruct (RealtimeSearch.perform_search _ _ _ term self)
    as [[[results|e] self1] t1]; cbn; [|by eauto 10].
  destruct (RealtimeSearch.synthesize_answer _ term results self1)
    as [[[answer|e] self2] t2]; cbn; [|by eauto 10].
  eexists _, _, _. split; [done|]. left.
  cbn. apply bool_decide_eq_true. by rewrite dom_insert_L, dom_singleton_L.
Qed.

End ChatBoundary.

Section ChatCases.

Variable requests_get : string → string → outcome HttpResponse.
Variable find_all_g : string → list string.
Variable str_of : pyval → string.
Variable create : list (string * pyval) → outcome (pyval * pyval).
Variable pause resume cancel : pyval → outcome (pyval * pyval).
Variable json_loads : string → outcome pyval.

#[local] Abbreviation search_chat :=
  (RealtimeSearch.chat requests_get find_all_g str_of).
#[local] Abbreviation perform_search :=
  (RealtimeSearch.perform_search requests_get find_all_g str_of).
#[local] Abbreviation synthesize_answer :=
  (RealtimeSearch.synthesize_answer str_of).
#[local] Abbreviation dca_chat :=
  (DCA.chat create pause resume cancel json_loads str_of).
#[local] Abbreviation handle_request :=
  (DCA.handle_request create pause resume cancel json_loads str_of).

(** The search agent, a request that goes through. *)
Lemma search_chat_success request self data prompt term results self1 t1
    answer self2 t2 :
  req_dict request = Ret data →
  contains "prompt" data = Ret true →
  getitem data "prompt" = Ret prompt →
  getitem prompt "content" = Ret term →
  perform_search term self = (Ret results, self1, t1) →
  synthesize_answer term results self1 = (Ret answer, self2, t2) →
  (search_chat request self).1
  = (Ret (VDict {[ "role" := VStr "assistant"; "content" := VStr answer ]}),
     self2).
Proof.
  intros Hdict Hhas Hprompt Hcontent Hsearch Hsyn.
  unfold RealtimeSearch.chat. unfold_M. cbn.
  rewrite Hdict. cbn. rewrite Hhas. cbn. rewrite Hprompt. cbn.
  rewrite Hcontent. cbn. fold perform_search. rewrite Hsearch. cbn.
  fold synthesize_answer. unfold_M. by rewrite Hsyn.
Qed.

(** The search agent, request data without a prompt. *)
Lemma search_chat_missing request self data :
  req_dict request = Ret data →
  contains "prompt" data = Ret false →
  search_chat request self
  = (Ret (error_pair "Missing parameters" 400), self,
     [EvLog INFO "Received chat request: {data}" [data];
      EvLog ERROR "Missing 'prompt' in chat request data" []]).
Proof.
  intros Hdict Hhas. unfold RealtimeSearch.chat. unfold_M. cbn.
  rewrite Hdict. cbn. by rewrite Hhas.
Qed.

(** The search agent, an exception inside the [try]. *)
Lemma search_chat_failure request self e :
  search_chat_raises requests_get find_all_g str_of request self e →
  ∃ v, (search_chat request self).1.1 = Ret v ∧ status_of v = Some 500%Z.
Proof.
  intros Hraises. unfold RealtimeSearch.chat. unfold_M. cbn.
  destruct Hraises as
    [Hdict | data Hdict Hhas | data Hdict Hhas Hprompt
    | data prompt Hdict Hhas Hprompt Hcontent
    | data prompt term self1 t1 Hdict Hhas Hprompt Hcontent Hsearch
    | data prompt term results self1 t1 self2 t2 Hdict Hhas Hprompt Hcontent
        Hsearch Hsyn];
    rewrite Hdict; cbn; [by eauto|..];
    rewrite Hhas; cbn; [by eauto|..];
    rewrite Hprompt; cbn; [by eauto|..];
    rewrite Hcontent; cbn; [by eauto|..];
    fold perform_search; rewrite Hsearch; cbn; [by eauto|].
  fold synthesize_answer. unfold_M. rewrite Hsyn. cbn. by eauto.
Qed.

(** The DCA agent, a request that goes through. *)
Lemma dca_chat_success request self data prompt response role
    next_turn_agent self1 t1 :
  req_get_json request = Ret data →
  truthy data = true →
  contains "prompt" data = Ret true →
  getitem data "prompt" = Ret prompt →
  handle_request prompt self
  = (Ret (response, role, next_turn_agent), self1, t1) →
  dca_chat request self
  = (Ret (VDict {[ "role" := role; "content" := response;
                   "next_turn_agent" := next_turn_agent ]}), self1, t1).
Proof.
  intros Hjson Htruthy Hhas Hprompt Hrequest.
  unfold DCA.chat. unfold_M. cbn. rewrite Hjson. cbn. rewrite Htruthy. cbn.
  rewrite Hhas. cbn. rewrite Hprompt. cbn. fold handle_request.
  rewrite Hrequest. cbn. by rewrite app_nil_r.
Qed.

(** The DCA agent, request data that is empty or has no prompt. *)
Lemma dca_chat_missing request self data :
  req_get_json request = Ret data →
  (truthy data = false →
   dca_chat request self
   = (Ret (error_pair "Invalid request data" 400), self, []))
  ∧ (truthy data = true →
     contains "prompt" data = Ret false →
     dca_chat request self
     = (Ret (error_pair "Missing required parameters" 400), self, [])).
Proof.
  intros Hjson. unfold DCA.chat. unfold_M. cbn. rewrite Hjson. cbn.
  split.
  - by intros ->.
  - intros -> Hhas. cbn. by rewrite Hhas.
Qed.

(** The DCA agent, an exception inside the [try]. *)
Lemma dca_chat_failure request self e :
  dca_chat_raises handle_request request self e →
  (dca_chat request self).1.1 = Ret (error_pair (exc_str e) 500).
Proof.
  intros Hraises. unfold DCA.chat. unfold_M. cbn.
  destruct Hraises as
    [Hjson | data Hjson Htruthy Hhas | data Hjson Htruthy Hhas Hprompt
    | data prompt self1 t1 Hjson Htruthy Hhas Hprompt Hrequest];
    rewrite Hjson; cbn; [done|..];
    rewrite Htruthy; cbn;
    rewrite Hhas; cbn; [done|..];
    rewrite Hprompt; cbn; [done|].
  fold handle_request. by rewrite Hrequest.
Qed.

End ChatCases.

(** C5, as the code has it.  Both [chat] methods always return.
    [DCAAgent.chat] returns a mapping with exactly the keys [role],
    [content] and [next_turn_agent] when the request carries a prompt
    and [handle_request] replies; the pair of an [{"error": ...}] body
    and 400 when the request data is empty or has no prompt; and the
    pair of [{"error": <message>}] and 500 when anything raises inside
    it.  [RealtimeSearchAgent.chat] returns a mapping with exactly the
    keys [role] and [content], and no [next_turn_agent], when the search
    and the synthesis go through; the pair of
    [{"error": "Missing parameters"}] and 400 when the request data has
    no prompt; and a pair with status 500 when anything raises inside
    it. *)
Theorem chat_boundary_by_agent :
  (∀ create pause resume cancel json_loads str_of request self,
     (∃ v self' t,
        DCA.chat create pause resume cancel json_loads str_of request self
        = (Ret v, self', t)
        ∧ chat_contract v = true)
     ∧ (∀ data prompt response role next_turn_agent self1 t1,
          req_get_json request = Ret data →
          truthy data = true →
          contains "prompt" data = Ret true →
          getitem data "prompt" = Ret prompt →
          DCA.handle_request create pause resume cancel json_loads str_of
            prompt self
          = (Ret (response, role, next_turn_agent), self1, t1) →
          DCA.chat create pause resume cancel json_loads str_of request self
          = (Ret (VDict {[ "role" := role; "content" := response;
                           "next_turn_agent" := next_turn_agent ]}),
             self1, t1)
          ∧ is_chat_success
              (VDict {[ "role" := role; "content" := response;
                        "next_turn_agent" := next_turn_agent ]}) = true)
     ∧ (∀ data,
          req_get_json request = Ret data →
          truthy data = false →
          DCA.chat create pause resume cancel json_loads str_of request self
          = (Ret (error_pair "Invalid request data" 400), self, []))
     ∧ (∀ data,
          req_get_json request = Ret data →
          truthy data = true →
          contains "prompt" data = Ret false →
          DCA.chat create pause resume cancel json_loads str_of request self
          = (Ret (error_pair "Missing required parameters" 400), self, []))
     ∧ (∀ e,
          dca_chat_raises
            (DCA.handle_request create pause resume cancel json_loads str_of)
            request self e →
          (DCA.chat create pause resume cancel json_loads str_of request
             self).1.1
          = Ret (error_pair (exc_str e) 500)))
  ∧ (∀ requests_get find_all_g str_of request self,
       (∃ v self' t,
          RealtimeSearch.chat requests_get find_all_g str_of request self
          = (Ret v, self', t)
          ∧ (is_role_content v = true
             ∨ v = error_pair "Missing parameters" 400
             ∨ status_of v = Some 500))
       ∧ (∀ data prompt term results self1 t1 answer self2 t2,
            req_dict request = Ret data →
            contains "prompt" data = Ret true →
            getitem data "prompt" = Ret prompt →
            getitem prompt "content" = Ret term →
            RealtimeSearch.perform_search requests_get find_all_g str_of
              term self
            = (Ret results, self1, t1) →
            RealtimeSearch.synthesize_answer str_of term results self1
            = (Ret answer, self2, t2) →
            (RealtimeSearch.chat requests_get find_all_g str_of request
               self).1
            = (Ret (VDict {[ "role" := VStr "assistant";
                             "content" := VStr answer ]}), self2)
            ∧ is_role_content
                (VDict {[ "role" := VStr "assistant";
                          "content" := VStr answer ]}) = true)
       ∧ (∀ data,
            req_dict request = Ret data →
            contains "prompt" data = Ret false →
            (RealtimeSearch.chat requests_get find_all_g str_of request
               self).1
            = (Ret (error_pair "Missing parameters" 400), self))
       ∧ (∀ e,
            search_chat_raises requests_get find_all_g str_of request self
              e →
            ∃ v,
              (RealtimeSearch.chat requests_get find_all_g str_of request
                 self).1.1 = Ret v
              ∧ status_of v = Some 500)).
Proof.
  split.
  - intros create pause resume cancel json_loads str_of request self.
    split; [apply dca_chat_contract|].
    split; [|split; [|split]].
    + intros. split; [by eapply dca_chat_success|apply three_keys].
    + intros data Hjson Htruthy.
      by apply (dca_chat_missing str_of create pause resume cancel json_loads
                  request self data Hjson).
    + intros data Hjson Htruthy Hhas.
      by apply (dca_chat_missing str_of create pause resume cancel json_loads
                  request self data Hjson).
    + intros e Hraises. by apply dca_chat_failure.
  - intros requests_get find_all_g str_of request self.
    split; [apply search_chat_shapes|].
    split; [|split].
    + intros. split; [by eapply search_chat_success|].
      cbn. apply bool_decide_eq_true.
      by rewrite dom_insert_L, dom_singleton_L.
    + intros data Hdict Hhas.
      by rewrite (search_chat_missing requests_get find_all_g str_of
                    request self data Hdict Hhas).
    + intros e Hraises. eapply search_chat_failure, Hraises.
Qed.

(** ** The deployment of [Scenario] *)

Section ScenarioProperties.

Import Scenario.

Lemma the_delegator_running choice :
  (the_delegator choice).1 = Ret (running choice).
Proof. destruct choice; vm_compute; reflexivity. Qed.

Lemma running_unique_names choice :
  NoDup (name <$> config_agents (Delegator.config (running choice))).
Proof. apply (bool_decide_unpack _). vm_compute. exact I. Qed.

Lemma dca_agent_constructed :
  DCA.__init__ (Ret DCA.CdpClient) (Ret (VList [])) dca_info (model None)
    the_embeddings
  = Ret a_dca_agent.
Proof. reflexivity. Qed.

(** The search agent answers a prompt with [role] and [content] only. *)
Lemma search_chat_lacks_next_turn_agent :
  ∃ v self' t,
    RealtimeSearch.chat requests_get_ok find_all_g str_of
      (prompt_request (VStr "rocq")) a_search_agent
    = (Ret v, self', t)
    ∧ is_role_content v = true
    ∧ chat_contract v = false.
Proof.
  eexists _, _, _. split; [vm_compute; reflexivity|].
  split; vm_compute; reflexivity.
Qed.

(** When something raises inside the search agent's [chat], here the
    subscript of a prompt that is a plain string, the body of the 500
    pair is keyed ["Error"], unlike the 400 pair of the same method. *)
Lemma search_chat_server_error_key :
  ∃ self' t,
    RealtimeSearch.chat requests_get_ok find_all_g str_of
      (text_request "rocq") a_search_agent
    = (Ret (VTuple [VDict {[ "Error" :=
                               VStr "string indices must be integers" ]};
                    VInt 500]), self', t)
    ∧ chat_contract
        (VTuple [VDict {[ "Error" :=
                            VStr "string indices must be integers" ]};
                 VInt 500]) = false.
Proof.
  eexists _, _. split; vm_compute; reflexivity.
Qed.

(** A failed request leaves the new term stored. *)
Lemma perform_search_keeps_term_when_offline :
  ∃ t,
    RealtimeSearch.perform_search requests_get_down find_all_g str_of
      (VStr "rocq") a_search_agent
    = (Ret "Error performing web search: Max retries exceeded",
       RealtimeSearch.set_last_search_term (VStr "rocq") a_search_agent, t).
Proof. eexists. vm_compute. reflexivity. Qed.



(** A configuration may list a name twice.  When one of the two
    descriptors requires an upload and the other does not, then without
    an upload the name is a candidate all the same, and the descriptor
    that requires the upload is described to the model like the
    other. *)
Lemma repeated_name_passes_upload_gate :
  rag_info ∈ config_agents (Delegator.config running_twice)
  ∧ upload_required rag_info = true
  ∧ name rag_info ∈ Delegator.available_agents running_twice false
  ∧ rag_info ∈ Delegator.described running_twice
                 (Delegator.available_agents running_twice false)
  ∧ ¬ (name rag_info ∈ Delegator.available_agents running_twice false
       ↔ (upload_required rag_info = true → false = true)).
Proof.
  assert (name rag_info ∈ Delegator.available_agents running_twice false)
    as Hcandidate by (apply list_elem_of_In; vm_compute; tauto).
  split; [apply list_elem_of_In; vm_compute; tauto|].
  split; [reflexivity|]. split; [exact Hcandidate|].
  split; [apply list_elem_of_In; vm_compute; tauto|].
  intros [Hgate _]. by specialize (Hgate Hcandidate eq_refl).
Qed.

(** The chat boundary on four requests: a prompt for each agent, and
    request data without a prompt for each. *)
Lemma chat_boundary_by_agent_witness :
  (DCA.chat create_ok tool_ok tool_ok tool_ok json_loads str_of
     (text_request "hello") a_dca_agent).1.1
  = Ret (VDict {[ "role" := VStr "assistant"; "content" := VStr "hello";
                  "next_turn_agent" := VNone ]})
  ∧ DCA.chat create_ok tool_ok tool_ok tool_ok json_loads str_of
      empty_request a_dca_agent
    = (Ret (error_pair "Invalid request data" 400), a_dca_agent, [])
  ∧ (RealtimeSearch.chat requests_get_ok find_all_g str_of
       (prompt_request (VStr "rocq")) a_search_agent).1.1
    = Ret (VDict {[ "role" := VStr "assistant";
                    "content" := VStr "An answer." ]})
  ∧ (RealtimeSearch.chat requests_get_ok find_all_g str_of empty_request
       a_search_agent).1
    = (Ret (error_pair "Missing parameters" 400), a_search_agent)
  ∧ ∃ v,
      (RealtimeSearch.chat requests_get_ok find_all_g str_of
         (text_request "rocq") a_search_agent).1.1 = Ret v
      ∧ status_of v = Some 500.
Proof.
  destruct chat_boundary_by_agent as [Hdca Hsearch].
  destruct (Hdca create_ok tool_ok tool_ok tool_ok json_loads str_of
              (text_request "hello") a_dca_agent)
    as (_ & Hsuccess & _).
  destruct (Hdca create_ok tool_ok tool_ok tool_ok json_loads str_of
              empty_request a_dca_agent)
    as (_ & _ & Hempty & _).
  destruct (Hsearch requests_get_ok find_all_g str_of
              (prompt_request (VStr "rocq")) a_search_agent)
    as (_ & Hanswer & _).
  destruct (Hsearch requests_get_ok find_all_g str_of empty_request
              a_search_agent)
    as (_ & _ & Hmissing & _).
  destruct (Hsearch requests_get_ok find_all_g str_of (text_request "rocq")
              a_search_agent)
    as (_ & _ & _ & Hraises).
  split.
  { destruct (Hsuccess (VDict {[ "prompt" := VStr "hello" ]}) (VStr "hello")
                (VStr "hello") (VStr "assistant") VNone a_dca_agent
                (DCA.handle_request create_ok tool_ok tool_ok tool_ok
                   json_loads str_of (VStr "hello") a_dca_agent).2)
      as [-> _]; vm_compute; reflexivity. }
  split; [apply (Hempty (VDict ∅)); reflexivity|].
  split.
  { destruct (Hanswer
                (VDict {[ "prompt" := VDict {[ "role" := VStr "user";
                                               "content" := VStr "rocq" ]} ]})
                (VDict {[ "role" := VStr "user"; "content" := VStr "rocq" ]})
                (VStr "rocq") ("Result:" ++ nl ++ "Rocq is a proof assistant")
                (RealtimeSearch.set_last_search_term (VStr "rocq")
                   a_search_agent)
                (RealtimeSearch.perform_search requests_get_ok find_all_g
                   str_of (VStr "rocq") a_search_agent).2
                "An answer."
                (RealtimeSearch.set_last_search_term (VStr "rocq")
                   a_search_agent)
                (RealtimeSearch.synthesize_answer str_of (VStr "rocq")
                   ("Result:" ++ nl ++ "Rocq is a proof assistant")
                   (RealtimeSearch.set_last_search_term (VStr "rocq")
                      a_search_agent)).2)
      as [-> _]; vm_compute; reflexivity. }
  split; [apply (Hmissing (VDict ∅)); reflexivity|].
  apply (Hraises (Exc TypeError "string indices must be integers")).
  apply (SearchRaisesContent _ _ _ _ _ _
           (VDict {[ "prompt" := VStr "rocq" ]}) (VStr "rocq"));
    vm_compute; reflexivity.
Defined.

(** *** The theorems at concrete inputs *)

Lemma delegate_chat_unknown_agent_witness :
  Delegator.agents (running None) !! "dca agent" = None
  ∧ (Delegator.delegate_chat "dca agent" (prompt_request (VStr "buy ETH"))
       (running None)).1
    = (Ret (VTuple [VDict {[ "error" :=
                               VStr "No such agent registered: dca agent" ]};
                    VInt 400]),
       running None).
Proof.
  split; [vm_compute; reflexivity|].
  destruct (delegate_chat_unknown_agent (running None) "dca agent"
              (prompt_request (VStr "buy ETH")))
    as [-> _]; [vm_compute; reflexivity|].
  reflexivity.
Defined.

Lemma delegate_chat_agent_raises_witness :
  Delegator.agents (running None)
    !! "general purpose and context-based rag agent"
  = Some (NoChat "RagAgent")
  ∧ agent_chat (prompt_request (VStr "summarise")) (NoChat "RagAgent")
    = (Raise (Exc AttributeError "'RagAgent' object has no attribute 'chat'"),
       NoChat "RagAgent", [])
  ∧ (Delegator.delegate_chat "general purpose and context-based rag agent"
       (prompt_request (VStr "summarise")) (running None)).1.1
    = Ret (VTuple [VDict {[ "error" :=
                              VStr "Chat delegation to general purpose and context-based rag agent failed" ]};
                   VInt 500]).
Proof.
  split; [vm_compute; reflexivity|]. split; [vm_compute; reflexivity|].
  rewrite (delegate_chat_agent_raises (running None)
             "general purpose and context-based rag agent"
             (prompt_request (VStr "summarise")) (NoChat "RagAgent")
             (Exc AttributeError "'RagAgent' object has no attribute 'chat'")
             (NoChat "RagAgent") []);
    vm_compute; reflexivity.
Defined.

Lemma available_agents_upload_gate_witness :
  rag_info ∈ config_agents (Delegator.config (running None))
  ∧ upload_required rag_info = true
  ∧ (name rag_info ∉ Delegator.available_agents (running None) false)
  ∧ (rag_info ∉ Delegator.described (running None)
                  (Delegator.available_agents (running None) false)).
Proof.
  assert (rag_info ∈ config_agents (Delegator.config (running None)))
    as Hin by (apply list_elem_of_In; vm_compute; tauto).
  split; [exact Hin|]. split; [reflexivity|].
  apply (available_agents_upload_gate (running None) false rag_info
           (running_unique_names None) Hin); reflexivity.
Defined.

Lemma get_delegator_response_no_choice_witness :
  truthy (VList []) = false
  ∧ (Delegator.get_delegator_response (VStr "hello") false (running None)).1
    = (Raise (Exc ValueError "No agent was selected by the model."),
       running None).
Proof.
  split; [reflexivity|].
  destruct (get_delegator_response_no_choice (running None) (VStr "hello")
              false {| content := ""; tool_calls := VList [] |})
    as [-> _]; reflexivity.
Defined.

Lemma handle_dollar_cost_average_missing_token_address_witness :
  (∅ : gmap string pyval) !! "token_address" = None
  ∧ DCA.handle_dollar_cost_average create_ok str_of (VDict ∅) VNone VNone
      a_dca_agent
    = (Raise (Exc KeyError "'token_address'"), a_dca_agent, []).
Proof.
  split; [reflexivity|].
  apply (handle_dollar_cost_average_missing_token_address create_ok str_of ∅
           VNone VNone a_dca_agent).
  reflexivity.
Defined.

Lemma perform_search_without_term_witness :
  RealtimeSearch.last_search_term a_search_agent = VNone
  ∧ RealtimeSearch.perform_search requests_get_ok find_all_g str_of VNone
      a_search_agent
    = (Ret "Web search failed. Please provide a search term.",
       a_search_agent,
       [EvLog WARNING "No search term available for web search" []]).
Proof.
  split; [reflexivity|].
  apply (perform_search_without_term requests_get_ok find_all_g str_of
           a_search_agent).
  reflexivity.
Defined.

End ScenarioProperties.

(** * Further properties *)

(** ** The realtime search agent: searching *)

Section SearchProperties.

Import RealtimeSearch.

Variable requests_get : string → string → outcome HttpResponse.
Variable find_all_g : string → list string.
Variable str_of : pyval → string.

#[local] Abbreviation fmt := (fmt str_of).
#[local] Abbreviation perform_search :=
  (perform_search requests_get find_all_g str_of).
#[local] Abbreviation search_for :=
  (search_for requests_get find_all_g str_of).

Lemma perform_search_effective term self :
  is_None (effective_term term self) = false →
  perform_search term self
  = search_for (effective_term term self)
      (if is_None term then self else set_last_search_term term self).
Proof.
  unfold effective_term. destruct (is_None term) eqn:Hterm; intros Hsome.
  - destruct term; try discriminate.
    unfold RealtimeSearch.perform_search. unfold_M. cbn. rewrite Hsome.
    by destruct (search_for _ self) as [[o s] t].
  - unfold RealtimeSearch.perform_search. unfold_M. rewrite Hterm. cbn.
    by destruct (search_for term _) as [[o s] t].
Qed.

Lemma perform_search_state term self :
  (perform_search term self).1.2
  = if is_None term then self else set_last_search_term term self.
Proof.
  destruct (is_None term) eqn:Hterm.
  - destruct term; try discriminate.
    destruct (is_None (last_search_term self)) eqn:Hprior.
    + destruct (last_search_term self) eqn:Hl; try discriminate.
      by rewrite (perform_search_nothing _ _ _ self Hl).
    + by rewrite perform_search_reuse, search_for_frame.
  - by rewrite perform_search_given, search_for_frame.
Qed.

(** X1. A request that fails with [requests.RequestException], or with
    a subclass of it, does not make [perform_search] raise: the text
    "Error performing web search: " followed by the exception's message
    is returned.  A failure of any other class is not caught and is
    raised on.  Either way a term that was given stays stored. *)
Theorem perform_search_request_failure term self e :
  is_None (effective_term term self) = false →
  requests_get (search_url (fmt (effective_term term self))) USER_AGENT
  = Raise e →
  (perform_search term self).1
  = (if is_RequestException (exc_cls e)
     then Ret ("Error performing web search: " ++ exc_str e)
     else Raise e,
     if is_None term then self else set_last_search_term term self).
Proof.
  intros Hsome Hget. rewrite perform_search_effective by done.
  unfold RealtimeSearch.search_for, search_url in *. unfold_M. cbn.
  rewrite Hget. cbn. by destruct (is_RequestException _).
Qed.

(** X2. Whenever there is a term to search for, given or stored,
    [perform_search] issues exactly one GET, to the search address of
    that term and with the fixed user agent, whatever the answer is. *)
Theorem perform_search_one_get term self :
  is_None (effective_term term self) = false →
  List.filter is_http_get (perform_search term self).2
  = [EvHttpGet (search_url (fmt (effective_term term self))) USER_AGENT].
Proof.
  intros Hsome. rewrite perform_search_effective by done.
  unfold RealtimeSearch.search_for, search_url. unfold_M. cbn.
  destruct (requests_get _ _) as [r|e]; cbn.
  - unfold raise_for_status. unfold_M.
    repeat case_match; simplify_eq/=; done.
  - destruct (is_RequestException _); done.
Qed.

(** X3. A call without a term repeats the search of the call before it:
    after [perform_search(term)], [perform_search(None)] runs the search
    for [term] again, on the agent that still stores [term]. *)
Theorem perform_search_repeats term self :
  is_None term = false →
  perform_search VNone (perform_search term self).1.2
  = search_for term (set_last_search_term term self).
Proof.
  intros Hterm.
  rewrite (perform_search_given _ _ _ term self Hterm), search_for_frame.
  by rewrite perform_search_reuse.
Qed.

(** X4. Only the first five result divisions count: dropping the ones
    after them from what the parser finds changes nothing in what
    [perform_search] returns, stores or does. *)
Theorem perform_search_first_five term self :
  RealtimeSearch.perform_search requests_get
    (λ html, take 5 (find_all_g html)) str_of term self
  = perform_search term self.
Proof.
  assert (∀ t s, RealtimeSearch.search_for requests_get
                   (λ html, take 5 (find_all_g html)) str_of t s
                 = search_for t s) as Hsearch.
  { intros t s. unfold RealtimeSearch.search_for. unfold_M. cbn.
    destruct (requests_get _ _) as [r|e]; cbn; [|done].
    unfold raise_for_status. unfold_M.
    repeat case_match; simplify_eq/=; try done.
    all: by rewrite take_take. }
  destruct (is_None term) eqn:Hterm.
  - destruct term; try discriminate.
    destruct (is_None (last_search_term self)) eqn:Hprior.
    + destruct (last_search_term self) eqn:Hl; try discriminate.
      by rewrite !perform_search_nothing.
    + by rewrite !perform_search_reuse.
  - by rewrite !perform_search_given.
Qed.

End SearchProperties.

(** ** The realtime search agent: answering *)

Section SearchChatProperties.

Import RealtimeSearch.

Variable requests_get : string → string → outcome HttpResponse.
Variable find_all_g : string → list string.
Variable str_of : pyval → string.

#[local] Abbreviation perform_search :=
  (perform_search requests_get find_all_g str_of).
#[local] Abbreviation search_for :=
  (search_for requests_get find_all_g str_of).
#[local] Abbreviation synthesize_answer := (synthesize_answer str_of).
#[local] Abbreviation chat := (chat requests_get find_all_g str_of).
#[local] Abbreviation messages_for := (synthesis_messages str_of).

Lemma synthesize_answer_run term results self :
  synthesize_answer term results self
  = match invoke (llm self) (messages_for term results) with
    | Ret result =>
        (Ret (strip (content result)), self,
         [EvLog INFO "Synthesizing answer from search results" [];
          EvLlmInvoke (messages_for term results);
          EvLog INFO "Received response from LLM: {result}"
            [VStr (content result)]])
    | Raise e =>
        (Raise e, self,
         [EvLog INFO "Synthesizing answer from search results" [];
          EvLlmInvoke (messages_for term results);
          EvLog ERROR "Error synthesizing answer: {str(e)}"
            [VStr (exc_str e)]])
    end.
Proof.
  unfold RealtimeSearch.synthesize_answer, synthesis_messages.
  unfold_M. cbn.
  destruct (invoke _ _) as [result|e]; reflexivity.
Qed.

Lemma chat_run request term self :
  asks_for request term →
  (chat request self).1
  = match perform_search term self with
    | (Ret results, self1, _) =>
        match invoke (llm self1) (messages_for term results) with
        | Ret result =>
            (Ret (VDict {[ "role" := VStr "assistant";
                           "content" := VStr (strip (content result)) ]}),
             self1)
        | Raise e =>
            (Ret (VTuple [VDict {[ "Error" := VStr (exc_str e) ]};
                          VInt 500]), self1)
        end
    | (Raise e, self1, _) =>
        (Ret (VTuple [VDict {[ "Error" := VStr (exc_str e) ]}; VInt 500]),
         self1)
    end.
Proof.
  intros (data & prompt & Hdict & Hprompt & Hcontent).
  unfold RealtimeSearch.chat. unfold_M. cbn. rewrite Hdict. cbn.
  rewrite bool_decide_eq_true_2 by (rewrite Hprompt; eauto). cbn.
  rewrite Hprompt. cbn. rewrite Hcontent. cbn.
  destruct (perform_search term self) as [[[results|e] self1] t1]; cbn;
    [|done].
  pose proof (synthesize_answer_run term results self1) as Hsyn.
  destruct (invoke _ _) as [result|e];
    unfold_M; rewrite Hsyn; reflexivity.
Qed.

(** X5. [chat] hands whatever text [perform_search] returns to the
    model, also the text of a failed search, and answers with the
    model's reply as a success: a mapping of [role], always
    ["assistant"], and [content]. *)
Theorem chat_answers_from_search_text request term self results self1 t1
    result :
  asks_for request term →
  perform_search term self = (Ret results, self1, t1) →
  invoke (llm self) (messages_for term results) = Ret result →
  (chat request self).1
  = (Ret (VDict {[ "role" := VStr "assistant";
                   "content" := VStr (strip (content result)) ]}), self1).
Proof.
  intros Hasks Hsearch Hinvoke. rewrite (chat_run _ term) by done.
  rewrite Hsearch.
  assert (llm self1 = llm self) as ->.
  { pose proof (perform_search_state requests_get find_all_g str_of term self)
      as Hstate. rewrite Hsearch in Hstate. cbn in Hstate. subst self1.
    by destruct (is_None term). }
  by rewrite Hinvoke.
Qed.

(** X6. A prompt with a content other than [None] leaves that content
    stored as the agent's last search term, whether [chat] ends in an
    answer or in a 500 pair; nothing else of the agent changes. *)
Theorem chat_stores_term request term self :
  asks_for request term →
  is_None term = false →
  (chat request self).1.2 = set_last_search_term term self.
Proof.
  intros Hasks Hterm. rewrite (chat_run _ term) by done.
  pose proof (search_for_frame requests_get find_all_g str_of term
                (set_last_search_term term self)) as Hframe.
  rewrite <- (perform_search_given _ _ _ term self Hterm) in Hframe.
  destruct (perform_search term self) as [[[results|e] self1] t1];
    cbn in Hframe; subst self1; [|done].
  by destruct (invoke _ _).
Qed.

End SearchChatProperties.

(** ** The DCA agent: the four handlers *)

(** One step of a handler's body: either it went through, or what it
    raised meets the [except] clauses. *)
Ltac raised :=
  repeat match goal with
         | |- context [if ?b then _ else _] => destruct b; cbn
         end;
  first [ eexists _, _; split; [reflexivity|done]
        | solve [eauto 10] ].

Tactic Notation "step_of" constr(x) "as" ident(a) :=
  destruct x as [a|?]; cbn; [|solve [raised]].

Section HandlerProperties.

Import DCA.

Variable tools_handle_create_dca_strategy
  : list (string * pyval) → outcome (pyval * pyval).
Variable tools_handle_pause_dca_strategy : pyval → outcome (pyval * pyval).
Variable tools_handle_resume_dca_strategy : pyval → outcome (pyval * pyval).
Variable tools_handle_cancel_dca_strategy : pyval → outcome (pyval * pyval).
Variable json_loads : string → outcome pyval.
Variable str_of : pyval → string.

#[local] Abbreviation fmt := (fmt str_of).
#[local] Abbreviation handle_dollar_cost_average :=
  (handle_dollar_cost_average tools_handle_create_dca_strategy str_of).
#[local] Abbreviation handle_pause_dca_strategy :=
  (handle_pause_dca_strategy tools_handle_pause_dca_strategy str_of).
#[local] Abbreviation handle_resume_dca_strategy :=
  (handle_resume_dca_strategy tools_handle_resume_dca_strategy str_of).
#[local] Abbreviation handle_cancel_dca_strategy :=
  (handle_cancel_dca_strategy tools_handle_cancel_dca_strategy str_of).
#[local] Abbreviation handle_function_call :=
  (handle_function_call tools_handle_create_dca_strategy
     tools_handle_pause_dca_strategy tools_handle_resume_dca_strategy
     tools_handle_cancel_dca_strategy str_of).

Implicit Types (d : gmap string pyval) (self : DCAAgent).

Lemma handle_dollar_cost_average_run d chain_id wallet_address self
    token_address amount interval_type :
  d !! "token_address" = Some token_address →
  d !! "amount" = Some amount →
  d !! "interval_type" = Some interval_type →
  handle_dollar_cost_average (VDict d) chain_id wallet_address self
  = match tools_handle_create_dca_strategy (create_kwargs d) with
    | Ret (res, role) =>
        match getitem res "strategy_id" with
        | Ret strategy_id =>
            (Ret (VStr ("Successfully created DCA strategy with ID: "
                        ++ fmt strategy_id), role, VNone), self,
             [EvTool "handle_create_dca_strategy" (create_kwargs d);
              EvLog INFO "DCA Strategy creation result: {res}" [res]])
        | Raise e =>
            (Raise e, self,
             [EvTool "handle_create_dca_strategy" (create_kwargs d);
              EvLog INFO "DCA Strategy creation result: {res}" [res]])
        end
    | Raise e =>
        if is_ValidationError (exc_cls e) then
          (Ret (VStr (exc_str e), VStr "assistant", VNone), self,
           [EvTool "handle_create_dca_strategy" (create_kwargs d);
            EvLog ERROR "Validation error in DCA creation: {str(e)}"
              [VStr (exc_str e)]])
        else if is_ExecutionError (exc_cls e) then
          (Ret (VStr (exc_str e), VStr "assistant", VNone), self,
           [EvTool "handle_create_dca_strategy" (create_kwargs d);
            EvLog ERROR "Execution error in DCA creation: {str(e)}"
              [VStr (exc_str e)]])
        else
          (Raise e, self,
           [EvTool "handle_create_dca_strategy" (create_kwargs d)])
    end.
Proof.
  intros Htoken Hamount Hinterval.
  unfold DCA.handle_dollar_cost_average, create_kwargs. unfold_M. cbn.
  rewrite Htoken, Hamount, Hinterval. cbn.
  destruct (tools_handle_create_dca_strategy _) as [[res role]|e]; cbn.
  - destruct (getitem res "strategy_id") as [sid|e] eqn:Hsid; cbn; [done|].
    assert (exc_cls e = KeyError ∨ exc_cls e = TypeError) as Hcls.
    { destruct res; cbn in Hsid; repeat case_match; simplify_eq; cbn; auto. }
    by destruct Hcls as [-> | ->].
  - destruct (is_ValidationError _); [done|].
    by destruct (is_ExecutionError _).
Qed.

(** X7. The optional arguments of a strategy have defaults: with the
    three required keys alone, [tools.handle_create_dca_strategy] is
    called, once, with [total_periods], [min_price] and [max_price]
    [None], [max_slippage] 0.01 and [gasless] [False]. *)
Theorem handle_dollar_cost_average_defaults d chain_id wallet_address self
    token_address amount interval_type :
  dom d = {[ "token_address"; "amount"; "interval_type" ]} →
  d !! "token_address" = Some token_address →
  d !! "amount" = Some amount →
  d !! "interval_type" = Some interval_type →
  List.filter is_tool
    (handle_dollar_cost_average (VDict d) chain_id wallet_address self).2
  = [EvTool "handle_create_dca_strategy"
       [("token_address", token_address); ("amount", amount);
        ("interval_type", interval_type); ("total_periods", VNone);
        ("min_price", VNone); ("max_price", VNone);
        ("max_slippage", VFloat 1 (-2)); ("gasless", VBool false)]].
Proof.
  intros Hdom Htoken Hamount Hinterval.
  assert (∀ k, k ∉ dom d → d !! k = None) as Hout
    by (intros k; apply not_elem_of_dom).
  assert (create_kwargs d
          = [("token_address", token_address); ("amount", amount);
             ("interval_type", interval_type); ("total_periods", VNone);
             ("min_price", VNone); ("max_price", VNone);
             ("max_slippage", VFloat 1 (-2)); ("gasless", VBool false)])
    as Hkwargs.
  { unfold create_kwargs. rewrite Htoken, Hamount, Hinterval.
    rewrite !Hout
      by (rewrite Hdom, !elem_of_union, !elem_of_singleton;
          intros [[?|?]|?]; discriminate).
    reflexivity. }
  rewrite (handle_dollar_cost_average_run _ _ _ _ _ _ _
             Htoken Hamount Hinterval), Hkwargs.
  destruct (tools_handle_create_dca_strategy _) as [[res role]|e]; cbn.
  - by destruct (getitem res "strategy_id").
  - destruct (is_ValidationError _); [done|].
    by destruct (is_ExecutionError _).
Qed.

(** X8. A [ValidationError] or an [ExecutionError] of
    [tools.handle_create_dca_strategy] does not leave the handler: its
    message is returned as the reply, with the role ["assistant"] and no
    next-turn agent.  Any other exception, a [StrategyNotFoundError]
    among them, is raised on. *)
Theorem handle_dollar_cost_average_tool_error d chain_id wallet_address
    self token_address amount interval_type e :
  d !! "token_address" = Some token_address →
  d !! "amount" = Some amount →
  d !! "interval_type" = Some interval_type →
  tools_handle_create_dca_strategy (create_kwargs d) = Raise e →
  (handle_dollar_cost_average (VDict d) chain_id wallet_address self).1
  = (if is_ValidationError (exc_cls e) || is_ExecutionError (exc_cls e)
     then Ret (VStr (exc_str e), VStr "assistant", VNone)
     else Raise e, self).
Proof.
  intros Htoken Hamount Hinterval Htool.
  rewrite (handle_dollar_cost_average_run _ _ _ _ _ _ _
             Htoken Hamount Hinterval), Htool.
  destruct (is_ValidationError _); [done|].
  by destruct (is_ExecutionError _).
Qed.

(** X9. When [tools.handle_create_dca_strategy] has returned a result
    without the key [strategy_id], the handler raises [KeyError] although
    the strategy has been created: the call to the tool is in its
    effects. *)
Theorem handle_dollar_cost_average_result_without_id d chain_id
    wallet_address self token_address amount interval_type
    (res : gmap string pyval) role :
  d !! "token_address" = Some token_address →
  d !! "amount" = Some amount →
  d !! "interval_type" = Some interval_type →
  tools_handle_create_dca_strategy (create_kwargs d)
  = Ret (VDict res, role) →
  res !! "strategy_id" = None →
  (handle_dollar_cost_average (VDict d) chain_id wallet_address self).1.1
  = Raise (Exc KeyError "'strategy_id'")
  ∧ List.filter is_tool
      (handle_dollar_cost_average (VDict d) chain_id wallet_address self).2
    = [EvTool "handle_create_dca_strategy" (create_kwargs d)].
Proof.
  intros Htoken Hamount Hinterval Htool Hres.
  rewrite (handle_dollar_cost_average_run _ _ _ _ _ _ _
             Htoken Hamount Hinterval), Htool.
  cbn. rewrite Hres. done.
Qed.

Lemma on_strategy_run fn tool log_ok done_text log_err d self strategy_id :
  d !! "strategy_id" = Some strategy_id →
  on_strategy str_of fn tool log_ok done_text log_err (VDict d) self
  = match tool strategy_id with
    | Ret (res, role) =>
        (Ret (VStr (done_text ++ fmt strategy_id), role, VNone), self,
         [EvTool fn [("strategy_id", strategy_id)]; EvLog INFO log_ok [res]])
    | Raise e =>
        if is_StrategyNotFoundError (exc_cls e) then
          (Ret (VStr (exc_str e), VStr "assistant", VNone), self,
           [EvTool fn [("strategy_id", strategy_id)];
            EvLog ERROR "Strategy not found: {str(e)}" [VStr (exc_str e)]])
        else if is_ExecutionError (exc_cls e) then
          (Ret (VStr (exc_str e), VStr "assistant", VNone), self,
           [EvTool fn [("strategy_id", strategy_id)];
            EvLog ERROR log_err [VStr (exc_str e)]])
        else (Raise e, self, [EvTool fn [("strategy_id", strategy_id)]])
    end.
Proof.
  intros Hid. unfold on_strategy. unfold_M. cbn. rewrite Hid. cbn.
  destruct (tool strategy_id) as [[res role]|e]; cbn.
  - reflexivity.
  - destruct (is_StrategyNotFoundError _); [done|].
    by destruct (is_ExecutionError _).
Qed.

Lemma on_strategy_missing fn tool log_ok done_text log_err d self :
  d !! "strategy_id" = None →
  on_strategy str_of fn tool log_ok done_text log_err (VDict d) self
  = (Raise (Exc KeyError "'strategy_id'"), self, []).
Proof.
  intros Hid. unfold on_strategy. unfold_M. cbn. by rewrite Hid.
Qed.

(** X10. Pausing, resuming and cancelling need [strategy_id]: for an
    argument mapping without that key each of the three handlers raises
    [KeyError('strategy_id')] and calls nothing of [tools]. *)
Theorem strategy_handlers_missing_id d chain_id wallet_address self :
  d !! "strategy_id" = None →
  handle_pause_dca_strategy (VDict d) chain_id wallet_address self
  = (Raise (Exc KeyError "'strategy_id'"), self, [])
  ∧ handle_resume_dca_strategy (VDict d) chain_id wallet_address self
    = (Raise (Exc KeyError "'strategy_id'"), self, [])
  ∧ handle_cancel_dca_strategy (VDict d) chain_id wallet_address self
    = (Raise (Exc KeyError "'strategy_id'"), self, []).
Proof.
  intros Hid.
  unfold DCA.handle_pause_dca_strategy, DCA.handle_resume_dca_strategy,
    DCA.handle_cancel_dca_strategy.
  by rewrite !on_strategy_missing.
Qed.

(** X11. The three handlers turn a [StrategyNotFoundError] and an
    [ExecutionError] of their [tools] function into the reply text, with
    the role ["assistant"]; any other exception, a [ValidationError]
    among them, they raise on. *)
Theorem strategy_handlers_errors d chain_id wallet_address self strategy_id
    e :
  d !! "strategy_id" = Some strategy_id →
  let reply :=
    if is_StrategyNotFoundError (exc_cls e) || is_ExecutionError (exc_cls e)
    then Ret (VStr (exc_str e), VStr "assistant", VNone)
    else Raise e in
  (tools_handle_pause_dca_strategy strategy_id = Raise e →
   (handle_pause_dca_strategy (VDict d) chain_id wallet_address self).1
   = (reply, self))
  ∧ (tools_handle_resume_dca_strategy strategy_id = Raise e →
     (handle_resume_dca_strategy (VDict d) chain_id wallet_address self).1
     = (reply, self))
  ∧ (tools_handle_cancel_dca_strategy strategy_id = Raise e →
     (handle_cancel_dca_strategy (VDict d) chain_id wallet_address self).1
     = (reply, self)).
Proof.
  intros Hid reply. subst reply.
  unfold DCA.handle_pause_dca_strategy, DCA.handle_resume_dca_strategy,
    DCA.handle_cancel_dca_strategy.
  rewrite !(on_strategy_run _ _ _ _ _ _ _ _ Hid).
  repeat split; intros ->.
  all: destruct (is_StrategyNotFoundError _); [done|].
  all: by destruct (is_ExecutionError _).
Qed.

(** *** What every handler keeps *)

Lemma handle_dollar_cost_average_keeps args chain_id wallet_address self :
  ∃ o t,
    handle_dollar_cost_average args chain_id wallet_address self
    = (o, self, t) ∧ no_next_turn o.
Proof.
  unfold DCA.handle_dollar_cost_average, report. unfold_M. cbn.
  step_of (getitem args "token_address") as token_address.
  step_of (getitem args "amount") as amount.
  step_of (getitem args "interval_type") as interval_type.
  step_of (get_method args "total_periods" VNone) as total_periods.
  step_of (get_method args "min_price" VNone) as min_price.
  step_of (get_method args "max_price" VNone) as max_price.
  step_of (get_method args "max_slippage" (VFloat 1 (-2))) as max_slippage.
  step_of (get_method args "gasless" (VBool false)) as gasless.
  destruct (tools_handle_create_dca_strategy _) as [[res role]|e]; cbn;
    [|solve [raised]].
  step_of (getitem res "strategy_id") as strategy_id.
  eexists _, _. split; [reflexivity|done].
Qed.

Lemma on_strategy_keeps fn tool log_ok done_text log_err args self :
  ∃ o t,
    on_strategy str_of fn tool log_ok done_text log_err args self
    = (o, self, t) ∧ no_next_turn o.
Proof.
  unfold on_strategy, report. unfold_M. cbn.
  destruct (getitem args "strategy_id") as [strategy_id|e]; cbn;
    [|solve [raised]].
  destruct (tool strategy_id) as [[res role]|e]; cbn; [|solve [raised]].
  eexists _, _. split; [reflexivity|done].
Qed.

Lemma handle_function_call_keeps func_name args chain_id wallet_address self :
  ∃ o t,
    handle_function_call func_name args chain_id wallet_address self
    = (o, self, t) ∧ no_next_turn o.
Proof.
  unfold DCA.handle_function_call. unfold_M. cbn.
  destruct (function_handlers self !! func_name) as [[]|]; cbn.
  - destruct (handle_dollar_cost_average_keeps args chain_id wallet_address
                self) as (o & t & -> & Ho). eauto.
  - destruct (on_strategy_keeps "handle_pause_dca_strategy"
                tools_handle_pause_dca_strategy
                "Strategy pause result: {res}"
                "Successfully paused strategy "
                "Error pausing strategy: {str(e)}" args self)
      as (o & t & Hrun & Ho).
    unfold DCA.handle_pause_dca_strategy. rewrite Hrun. eauto.
  - destruct (on_strategy_keeps "handle_resume_dca_strategy"
                tools_handle_resume_dca_strategy
                "Strategy resume result: {res}"
                "Successfully resumed strategy "
                "Error resuming strategy: {str(e)}" args self)
      as (o & t & Hrun & Ho).
    unfold DCA.handle_resume_dca_strategy. rewrite Hrun. eauto.
  - destruct (on_strategy_keeps "handle_cancel_dca_strategy"
                tools_handle_cancel_dca_strategy
                "Strategy cancellation result: {res}"
                "Successfully cancelled strategy "
                "Error cancelling strategy: {str(e)}" args self)
      as (o & t & Hrun & Ho).
    unfold DCA.handle_cancel_dca_strategy. rewrite Hrun. eauto.
  - eexists _, _. split; [done|]. done.
Qed.

(** X12. A function name that is not in [function_handlers] is answered,
    not raised: the reply is the text "Error: Function '<name>' not
    supported." with the role ["assistant"], and nothing of [tools] is
    called.  For an agent as [__init__] builds it that is every name but
    the four handler names. *)
Theorem handle_function_call_unsupported Cdp_new tools_get_tools config llm
    embeddings self func_name args chain_id wallet_address :
  DCA.__init__ Cdp_new tools_get_tools config llm embeddings = Ret self →
  func_name ∉ ["handle_dollar_cost_average"; "handle_pause_dca_strategy";
               "handle_resume_dca_strategy"; "handle_cancel_dca_strategy"] →
  handle_function_call func_name args chain_id wallet_address self
  = (Ret (VStr ("Error: Function '" ++ func_name ++ "' not supported."),
          VStr "assistant", VNone), self,
     [EvLog ERROR "Function '{func_name}' not supported." [VStr func_name]]).
Proof.
  intros Hinit Hname.
  assert (function_handlers self !! func_name = None) as Hnone.
  { unfold DCA.__init__ in Hinit.
    destruct Cdp_new; [|done]. destruct tools_get_tools; [|done].
    simplify_eq. cbn.
    rewrite !not_elem_of_cons in Hname.
    destruct Hname as (? & ? & ? & ? & _).
    by rewrite !lookup_insert_ne, lookup_singleton_ne. }
  unfold DCA.handle_function_call. unfold_M. cbn. by rewrite Hnone.
Qed.

End HandlerProperties.

(** ** The DCA agent: requests *)

Section RequestProperties.

Import DCA.

Variable tools_handle_create_dca_strategy
  : list (string * pyval) → outcome (pyval * pyval).
Variable tools_handle_pause_dca_strategy : pyval → outcome (pyval * pyval).
Variable tools_handle_resume_dca_strategy : pyval → outcome (pyval * pyval).
Variable tools_handle_cancel_dca_strategy : pyval → outcome (pyval * pyval).
Variable json_loads : string → outcome pyval.
Variable str_of : pyval → string.

#[local] Abbreviation handle_function_call :=
  (handle_function_call tools_handle_create_dca_strategy
     tools_handle_pause_dca_strategy tools_handle_resume_dca_strategy
     tools_handle_cancel_dca_strategy str_of).
#[local] Abbreviation handle_request :=
  (handle_request tools_handle_create_dca_strategy
     tools_handle_pause_dca_strategy tools_handle_resume_dca_strategy
     tools_handle_cancel_dca_strategy json_loads str_of).
#[local] Abbreviation chat :=
  (chat tools_handle_create_dca_strategy
     tools_handle_pause_dca_strategy tools_handle_resume_dca_strategy
     tools_handle_cancel_dca_strategy json_loads str_of).

Implicit Types (self : DCAAgent) (message : pyval).

Lemma log_then {S B} lvl msg args (m : M S B) (s : S) :
  (log lvl msg args;; m) s
  = match m s with (o, s', t) => (o, s', EvLog lvl msg args :: t) end.
Proof. unfold_M. by destruct (m s) as [[o s'] t]. Qed.

Lemma user_content_then {B} message (k : pyval → M DCAAgent B) self :
  (match message with
   | VDict _ => lift (get_method message "content" (VStr ""))
   | _ => mret message
   end ≫= k) self
  = k (user_content message) self.
Proof.
  unfold_M.
  destruct message; cbn; by destruct (k _ self) as [[o s'] t].
Qed.

(** X13. A failure of the completion call is not handled inside
    [handle_request], which raises it on; [chat] then reports it as the
    pair of [{"error": <message>}] and 500. *)
Theorem handle_request_completion_failure message self e :
  create_chat_completion (llm self) (dca_prompt message)
    (tools_provided self) = Raise e →
  handle_request message self
  = (Raise e, self,
     [EvLog INFO "Processing message: {message}" [message];
      EvChatCompletion (dca_prompt message)])
  ∧ ∀ request (data : gmap string pyval),
      req_get_json request = Ret (VDict data) →
      data !! "prompt" = Some message →
      (chat request self).1
      = (Ret (VTuple [VDict {[ "error" := VStr (exc_str e) ]}; VInt 500]),
         self).
Proof.
  intros Hfail.
  assert (handle_request message self
          = (Raise e, self,
             [EvLog INFO "Processing message: {message}" [message];
              EvChatCompletion (dca_prompt message)])) as Hrun.
  { unfold DCA.handle_request. rewrite log_then, user_content_then.
    unfold_M. cbn. unfold dca_prompt in Hfail. by rewrite Hfail. }
  split; [done|]. intros request data Hjson Hprompt.
  assert (data ≠ ∅) as Hne by (intros ->; by rewrite lookup_empty in Hprompt).
  unfold DCA.chat. unfold_M. cbn. rewrite Hjson. cbn.
  rewrite bool_decide_eq_false_2
    by (by intros ?%map_size_empty_iff). cbn.
  rewrite bool_decide_eq_true_2 by (rewrite Hprompt; eauto). cbn.
  rewrite Hprompt. cbn. fold handle_request. by rewrite Hrun.
Qed.

Lemma handle_request_returns_aux message self result :
  create_chat_completion (llm self) (dca_prompt message)
    (tools_provided self) = Ret result →
  ∃ response role t,
    handle_request message self = (Ret (response, role, VNone), self, t).
Proof.
  intros Hresult.
  unfold DCA.handle_request. rewrite log_then, user_content_then.
  unfold_M. cbn. unfold dca_prompt in Hresult. rewrite Hresult. cbn.
  step_of (getitem result "choices") as choices.
  step_of (getitem0 choices) as choice0.
  step_of (getitem choice0 "message") as choice.
  step_of (contains "tool_calls" choice) as has_tool_calls.
  destruct has_tool_calls; cbn.
  2: { step_of (get_method choice "content" (VStr "")) as content. eauto. }
  step_of (getitem choice "tool_calls") as calls.
  step_of (getitem0 calls) as call0.
  step_of (getitem call0 "function") as func.
  step_of (getitem func "name") as raw_name.
  step_of (last_word raw_name) as func_name.
  step_of (getitem func "arguments") as arguments.
  step_of (loads json_loads arguments) as args.
  destruct (handle_function_call_keeps tools_handle_create_dca_strategy
              tools_handle_pause_dca_strategy tools_handle_resume_dca_strategy
              tools_handle_cancel_dca_strategy str_of func_name args VNone VNone self)
    as ([[[response role] nta]|e] & t & Hrun & Ho).
  - fold handle_function_call. rewrite Hrun. cbn in *. subst. eauto.
  - fold handle_function_call. rewrite Hrun. cbn. eauto.
Qed.

(** X14. Once the completion call has returned, [handle_request]
    returns a reply whatever the result looks like and whatever the
    handlers raise: every failure in between becomes the reply text.
    The reply names no next-turn agent and the agent is not written. *)
Theorem handle_request_returns message self result :
  create_chat_completion (llm self) (dca_prompt message)
    (tools_provided self) = Ret result →
  ∃ response role t,
    handle_request message self = (Ret (response, role, VNone), self, t).
Proof. apply handle_request_returns_aux. Qed.

(** X15. A model answer without tool calls is relayed as it is: the
    reply is the message's [content], or the empty string when it has
    none, with the role ["assistant"], and nothing of [tools] is
    called. *)
Theorem handle_request_plain_answer message self result
    (answer : gmap string pyval) :
  create_chat_completion (llm self) (dca_prompt message)
    (tools_provided self) = Ret result →
  first_message result answer →
  answer !! "tool_calls" = None →
  (handle_request message self).1
  = (Ret (default (VStr "") (answer !! "content"), VStr "assistant", VNone),
     self)
  ∧ List.filter is_tool (handle_request message self).2 = [].
Proof.
  intros Hresult (r & choice0 & rest & -> & Hchoices & Hmessage) Hnone.
  unfold DCA.handle_request. rewrite log_then, user_content_then.
  unfold_M. cbn. unfold dca_prompt in Hresult. rewrite Hresult. cbn.
  rewrite Hchoices. cbn. rewrite Hmessage. cbn.
  rewrite bool_decide_eq_false_2 by (rewrite Hnone; by intros [? ?]).
  cbn. done.
Qed.


(** *** [chat] *)

Lemma chat_with_prompt request (data : gmap string pyval) message self :
  req_get_json request = Ret (VDict data) →
  data !! "prompt" = Some message →
  chat request self
  = match handle_request message self with
    | (Ret (response, role, next_turn_agent), self', t) =>
        (Ret (VDict {[ "role" := role; "content" := response;
                       "next_turn_agent" := next_turn_agent ]}), self', t)
    | (Raise e, self', t) =>
        (Ret (VTuple [VDict {[ "error" := VStr (exc_str e) ]}; VInt 500]),
         self',
         (t ++ [EvLog ERROR "Error in chat method: {str(e)}"
                  [VStr (exc_str e)]])%list)
    end.
Proof.
  intros Hjson Hprompt.
  assert (data ≠ ∅) as Hne by (intros ->; by rewrite lookup_empty in Hprompt).
  unfold DCA.chat. unfold_M. cbn. rewrite Hjson. cbn.
  rewrite bool_decide_eq_false_2
    by (by intros ?%map_size_empty_iff). cbn.
  rewrite bool_decide_eq_true_2 by (rewrite Hprompt; eauto). cbn.
  rewrite Hprompt. cbn. fold handle_request.
  destruct (handle_request message self)
    as [[[[[response role] nta]|e] self'] t]; cbn; [|done].
  by rewrite app_nil_r.
Qed.

(** X17. Without a prompt the model is not asked: for request data that
    is an empty mapping, or a mapping without the key ["prompt"], [chat]
    returns an [{"error": ...}] body with status 400 and has no effect
    at all. *)
Theorem chat_without_prompt request (data : gmap string pyval) self :
  req_get_json request = Ret (VDict data) →
  data !! "prompt" = None →
  chat request self
  = (Ret (VTuple [VDict {[ "error" :=
                             VStr (if truthy (VDict data)
                                   then "Missing required parameters"
                                   else "Invalid request data") ]};
                  VInt 400]), self, []).
Proof.
  intros Hjson Hnone. unfold DCA.chat. unfold_M. cbn. rewrite Hjson. cbn.
  destruct (bool_decide (size data = 0%nat)); cbn; [done|].
  rewrite bool_decide_eq_false_2 by (rewrite Hnone; by intros [? ?]).
  done.
Qed.

(** [handle_request] never writes the agent. *)
Lemma handle_request_keeps message self :
  ∃ o t, handle_request message self = (o, self, t) ∧ no_next_turn o.
Proof.
  destruct (create_chat_completion (llm self) (dca_prompt message)
              (tools_provided self)) as [result|e] eqn:Hcompletion.
  - destruct (handle_request_returns_aux message self result Hcompletion)
      as (response & role & t & ->). by eexists _, _.
  - unfold DCA.handle_request. rewrite log_then, user_content_then.
    unfold_M. cbn. unfold dca_prompt in Hcompletion. rewrite Hcompletion.
    by eexists _, _.
Qed.

(** X18. [chat] is stateless: whatever the request and whatever the
    model and [tools] do, the agent is left as it was; and a reply
    mapping always carries [next_turn_agent] as [None]. *)
Theorem chat_keeps_agent request self :
  (chat request self).1.2 = self
  ∧ ∀ reply : gmap string pyval,
      (chat request self).1.1 = Ret (VDict reply) →
      reply !! "next_turn_agent" = Some VNone.
Proof.
  unfold DCA.chat. unfold_M. cbn.
  destruct (req_get_json request) as [data|e]; cbn; [|done].
  destruct (truthy data); cbn; [|done].
  destruct (contains "prompt" data) as [[|]|e]; cbn; [|done..].
  destruct (getitem data "prompt") as [prompt|e]; cbn; [|done].
  fold handle_request.
  destruct (handle_request_keeps prompt self) as (o & t & -> & Ho).
  destruct o as [[[response role] nta]|e]; cbn in *; [|done].
  subst nta. split; [done|]. intros reply [= <-].
  by rewrite !lookup_insert_ne, lookup_singleton_eq.
Qed.

End RequestProperties.

(** ** The delegator: dispatch *)

Section DispatchProperties.

Import Delegator.

Context {A : Type} `{Agent A} `{!Routable A}.

Implicit Types (self : Delegator (A := A)) (request : ChatRequest).

Lemma delegate_chat_run self agent_name request :
  delegate_chat agent_name request self
  = match if_agent (agents self !! agent_name) with
    | Some agent =>
        match agent_chat request agent with
        | (Ret v, agent', t) =>
            (Ret (VTuple [VStr agent_name; v]),
             set_agents (<[agent_name := agent']> (agents self)) self,
             ([EvLog INFO "Attempting to delegate chat to agent: {agent_name}"
                 [VStr agent_name];
               EvLog INFO "Successfully found agent: {agent_name}"
                 [VStr agent_name];
               EvAgentChat agent_name] ++ t ++
              [EvLog INFO
                 "Chat delegation to {agent_name} completed successfully"
                 [VStr agent_name];
               EvLog INFO "Response from {agent_name}: {result}"
                 [VStr agent_name; v]])%list)
        | (Raise e, agent', t) =>
            (Ret (VTuple [VDict {[ "error" :=
                                     VStr ("Chat delegation to "
                                           ++ agent_name ++ " failed") ]};
                          VInt 500]),
             set_agents (<[agent_name := agent']> (agents self)) self,
             ([EvLog INFO "Attempting to delegate chat to agent: {agent_name}"
                 [VStr agent_name];
               EvLog INFO "Successfully found agent: {agent_name}"
                 [VStr agent_name];
               EvAgentChat agent_name] ++ t ++
              [EvLog ERROR
                 "Error during chat delegation to {agent_name}: {str(e)}"
                 [VStr agent_name; VStr (exc_str e)]])%list)
        end
    | None =>
        (Ret (VTuple [VDict {[ "error" :=
                                 VStr ("No such agent registered: "
                                       ++ agent_name) ]};
                      VInt 400]),
         self,
         [EvLog INFO "Attempting to delegate chat to agent: {agent_name}"
            [VStr agent_name];
          EvLog WARNING
            "Attempted to delegate to non-existent agent: {agent_name}"
            [VStr agent_name]])
    end.
Proof.
  unfold delegate_chat, call_chat. unfold_M. cbn.
  destruct (if_agent _) as [agent|]; cbn; [|done].
  destruct (agent_chat request agent) as [[[v|e] agent'] t]; cbn; done.
Qed.

Lemma if_agent_Some (o : option A) agent :
  if_agent o = Some agent → o = Some agent.
Proof.
  destruct o as [a|]; cbn; [|done]. by destruct (agent_bool a); intros [= ->].
Qed.


(** X20. [delegate_chat] touches one registry entry at most, the one
    under [agent_name]: the configuration, the model and embedding
    handles, every other entry and the set of registered names stay as
    they were. *)
Theorem delegate_chat_frame self agent_name request :
  let self' := (delegate_chat agent_name request self).1.2 in
  config self' = config self
  ∧ llm self' = llm self
  ∧ embeddings self' = embeddings self
  ∧ dom (agents self') = dom (agents self)
  ∧ ∀ n, n ≠ agent_name → agents self' !! n = agents self !! n.
Proof.
  cbn zeta. rewrite delegate_chat_run.
  destruct (if_agent _) as [agent|] eqn:Hagent; [|done].
  apply if_agent_Some in Hagent.
  assert (∀ agent', dom (<[agent_name := agent']> (agents self))
                    = dom (agents self)) as Hdom.
  { intros agent'. apply dom_insert_lookup_L. by rewrite Hagent. }
  destruct (agent_chat request agent) as [[[v|e] agent'] t]; cbn.
  all: repeat split; try done; try apply Hdom.
  all: intros n Hn; by rewrite lookup_insert_ne.
Qed.

(** *** [delegate_route] *)

(** X21. For a name that the registry does not hold, [delegate_route]
    returns the pair of [{"error": "No such agent registered"}] and 400;
    its only effect is the warning it logs. *)
Theorem delegate_route_unknown_agent self agent_name request method_name :
  agents self !! agent_name = None →
  delegate_route agent_name request method_name self
  = (Ret (VTuple [VDict {[ "error" := VStr "No such agent registered" ]};
                  VInt 400]),
     self,
     [EvLog WARNING "Attempted to delegate to non-existent agent: %s"
        [VStr agent_name]]).
Proof.
  intros Hnone. unfold delegate_route. unfold_M. cbn. by rewrite Hnone.
Qed.

(** X22. For an agent without an attribute of the name asked for,
    [delegate_route] returns the pair of an [{"error": ...}] body that
    names the method and the agent, and 400; the agent is not called and
    nothing changes. *)
Theorem delegate_route_unknown_method self agent_name request method_name
    agent :
  agents self !! agent_name = Some agent →
  agent_bool agent = true →
  agent_getattr agent method_name = None →
  delegate_route agent_name request method_name self
  = (Ret (VTuple [VDict {[ "error" :=
                             VStr ("No such method '" ++ method_name
                                   ++ "' in agent '" ++ agent_name ++ "'") ]};
                  VInt 400]),
     self,
     [EvLog WARNING "Method %s not found in agent %s"
        [VStr method_name; VStr agent_name]]).
Proof.
  intros Hsome Hbool Hattr. unfold delegate_route. unfold_M. cbn.
  rewrite Hsome. cbn. rewrite Hbool, Hattr. reflexivity.
Qed.

(** X23. Unlike [delegate_chat], [delegate_route] forwards: what the
    method returns is returned as it is, not paired with the agent's
    name, and what the method raises is raised on, not turned into an
    error pair. *)
Theorem delegate_route_forwards self agent_name request method_name agent
    method o agent' t :
  agents self !! agent_name = Some agent →
  agent_bool agent = true →
  agent_getattr agent method_name = Some method →
  method request agent = (o, agent', t) →
  delegate_route agent_name request method_name self
  = (o, set_agents (<[agent_name := agent']> (agents self)) self,
     EvLog INFO "Delegating %s to agent: %s"
       [VStr method_name; VStr agent_name] :: t).
Proof.
  intros Hsome Hbool Hattr Hcall.
  unfold delegate_route, call_method. unfold_M. cbn.
  rewrite Hsome. cbn. rewrite Hbool, Hattr. cbn. by rewrite Hcall.
Qed.

End DispatchProperties.

(** ** The delegator: selection and registry *)

Section SelectionProperties.

Import Delegator.

Context {A : Type} `{Agent A}.
Variable import_module : string → outcome (gmap string (agent_class (A := A))).

Implicit Types (self : Delegator (A := A)).

#[local] Abbreviation load_agents_loop := (load_agents_loop import_module).
#[local] Abbreviation load_agents := (load_agents import_module).
#[local] Abbreviation resolve_and_construct :=
  (resolve_and_construct import_module).
#[local] Abbreviation constructed_as := (constructed_as import_module).
#[local] Abbreviation failures := (failures import_module).
#[local] Abbreviation __init__ := (__init__ import_module).

(** What the first tool call of a model answer selects. *)
Lemma get_delegator_response_run self prompt upload_state result call rest :
  bind_tools_invoke (llm self) (available_agents self upload_state)
    (system_prompt
       (agent_descriptions self (available_agents self upload_state)))
    prompt = Ret result →
  tool_calls result = VList (call :: rest) →
  (get_delegator_response prompt upload_state self).1
  = (match get_method call "args" VNone with
     | Ret args =>
         match get_method args "agent" VNone with
         | Ret selected => Ret (VDict {[ "agent" := selected ]})
         | Raise e => Raise e
         end
     | Raise e => Raise e
     end, self).
Proof.
  intros Hinvoke Hcalls. unfold get_delegator_response. unfold_M. cbn.
  rewrite Hinvoke. cbn. rewrite Hcalls. cbn.
  destruct (get_method call _ _) as [args|e]; cbn; [|done].
  by destruct (get_method args _ _).
Qed.

(** X24. The model's choice is not checked: whatever the first tool call
    gives as [agent], a name outside the candidate list or a value that
    is no string, is returned as the selected agent; further tool calls
    are ignored. *)
Theorem get_delegator_response_unchecked self prompt upload_state result
    (call args : gmap string pyval) rest selected :
  bind_tools_invoke (llm self) (available_agents self upload_state)
    (system_prompt
       (agent_descriptions self (available_agents self upload_state)))
    prompt = Ret result →
  tool_calls result = VList (VDict call :: rest) →
  call !! "args" = Some (VDict args) →
  args !! "agent" = Some selected →
  (get_delegator_response prompt upload_state self).1
  = (Ret (VDict {[ "agent" := selected ]}), self).
Proof.
  intros Hinvoke Hcalls Hargs Hagent.
  rewrite (get_delegator_response_run _ _ _ _ _ _ Hinvoke Hcalls). cbn.
  rewrite Hargs. cbn. by rewrite Hagent.
Qed.

(** X25. A tool call whose arguments lack [agent] selects [None]
    without any failure; a tool call without arguments makes
    [get_delegator_response] raise [AttributeError]. *)
Theorem get_delegator_response_incomplete_call self prompt upload_state
    result (call : gmap string pyval) rest :
  bind_tools_invoke (llm self) (available_agents self upload_state)
    (system_prompt
       (agent_descriptions self (available_agents self upload_state)))
    prompt = Ret result →
  tool_calls result = VList (VDict call :: rest) →
  (∀ args : gmap string pyval,
     call !! "args" = Some (VDict args) →
     args !! "agent" = None →
     (get_delegator_response prompt upload_state self).1
     = (Ret (VDict {[ "agent" := VNone ]}), self))
  ∧ (call !! "args" = None →
     (get_delegator_response prompt upload_state self).1
     = (Raise (Exc AttributeError
                 "'NoneType' object has no attribute 'get'"), self)).
Proof.
  intros Hinvoke Hcalls.
  rewrite (get_delegator_response_run _ _ _ _ _ _ Hinvoke Hcalls). cbn.
  split.
  - intros args Hargs Hagent. rewrite Hargs. cbn. by rewrite Hagent.
  - by intros ->.
Qed.

Lemma filter_all {B} (f : B → bool) (l : list B) :
  (∀ x, f x = true) → List.filter f l = l.
Proof.
  intros Hf. induction l as [|x l IH]; cbn; [done|]. by rewrite Hf, IH.
Qed.

Lemma filter_sublist_mono {B} (f g : B → bool) (l : list B) :
  (∀ x, f x = true → g x = true) →
  List.filter f l `sublist_of` List.filter g l.
Proof.
  intros Hfg. induction l as [|x l IH]; cbn; [done|].
  destruct (f x) eqn:Hf.
  - rewrite (Hfg x Hf). by constructor.
  - destruct (g x); [by constructor|done].
Qed.

(** X26. With an upload present every configured name is a candidate;
    without one the candidates are a part of those, and either way they
    come in the order of the configuration. *)
Theorem available_agents_order self :
  available_agents self true = name <$> config_agents (config self)
  ∧ available_agents self false `sublist_of` available_agents self true.
Proof.
  unfold available_agents. split.
  - f_equal. apply filter_all. intros x. cbn. by rewrite andb_false_r.
  - apply fmap_sublist, filter_sublist_mono.
    intros x _. cbn. by rewrite andb_false_r.
Qed.

(** *** Construction *)

Lemma init_run config0 llm0 embeddings0 :
  ∃ registry t,
    __init__ config0 llm0 embeddings0
    = (Ret {| config := config0; llm := llm0; embeddings := embeddings0;
              agents := registry |},
       (t ++ [EvLog INFO "Delegator initialized with %d agents"
                [VInt (Z.of_nat (size registry))]])%list)
    ∧ load_agents config0
        {| config := config0; llm := llm0; embeddings := embeddings0;
           agents := ∅ |}
      = (Ret registry,
         {| config := config0; llm := llm0; embeddings := embeddings0;
            agents := ∅ |}, t)
    ∧ ∀ n, registry !! n
           = constructed_as llm0 embeddings0 (config_agents config0) n.
Proof.
  unfold Delegator.__init__, Delegator.load_agents.
  destruct (load_agents_loop_run import_module (config_agents config0) ∅
              {| config := config0; llm := llm0; embeddings := embeddings0;
                 agents := ∅ |})
    as (registry & t & Hrun & Hlookup & _).
  exists registry, t. rewrite Hrun. split; [done|]. split; [done|].
  intros n. rewrite Hlookup, lookup_empty. cbn.
  by destruct (constructed_as _ _ _ _).
Qed.

(** X27. Constructing a delegator never fails, however many agents
    fail to load: it keeps the configuration and the two handles it was
    given, its registry holds under each name the instance that the
    descriptors of that name construct, and the last line it logs
    reports the number of registered agents. *)
Theorem init_always_returns config0 llm0 embeddings0 :
  ∃ self t,
    __init__ config0 llm0 embeddings0 = (Ret self, t)
    ∧ config self = config0
    ∧ llm self = llm0
    ∧ embeddings self = embeddings0
    ∧ (∀ n, agents self !! n
            = constructed_as llm0 embeddings0 (config_agents config0) n)
    ∧ last t = Some (EvLog INFO "Delegator initialized with %d agents"
                       [VInt (Z.of_nat (size (agents self)))]).
Proof.
  destruct (init_run config0 llm0 embeddings0)
    as (registry & t & -> & _ & Hlookup).
  eexists _, _. split; [done|]. cbn. repeat split; [done|].
  by rewrite last_snoc.
Qed.

(** X28. Every registered name is a configured name, so with an upload
    present every registered agent is a candidate of the selection. *)
Theorem registered_is_candidate config0 llm0 embeddings0 self t n :
  __init__ config0 llm0 embeddings0 = (Ret self, t) →
  is_Some (agents self !! n) →
  n ∈ name <$> config_agents (config self)
  ∧ n ∈ available_agents self true.
Proof.
  destruct (init_run config0 llm0 embeddings0)
    as (registry & t0 & -> & _ & Hlookup).
  intros [= <- <-]. cbn. rewrite Hlookup.
  intros (info & Hin & <- & _)%constructed_as_is_Some.
  assert (name info ∈ name <$> config_agents config0) as Hname
    by by apply list_elem_of_fmap_2.
  split; [done|].
  unfold available_agents. cbn. rewrite filter_all; [done|].
  intros x. cbn. by rewrite andb_false_r.
Qed.

Lemma load_agents_loop_size infos : ∀ registry self registry' t,
  NoDup (name <$> infos) →
  (∀ info, info ∈ infos → registry !! name info = None) →
  load_agents_loop infos registry self = (Ret registry', self, t) →
  (size registry' + length (failures (llm self) (embeddings self) infos)
   = size registry + length infos)%nat.
Proof.
  induction infos as [|info infos IH];
    intros registry self registry' t Hnodup Hfresh Hrun.
  { cbn in Hrun. unfold_M. simplify_eq. simpl length. lia. }
  rewrite fmap_cons, NoDup_cons in Hnodup. destruct Hnodup as [Hname Hnodup].
  cbn [Delegator.load_agents_loop] in Hrun. unfold_M.
  rewrite load_one_run in Hrun.
  unfold Delegator.failures. cbn [List.filter].
  destruct (resolve_and_construct info _ _) as [inst|e] eqn:Hinst; cbn in Hrun.
  - destruct (load_agents_loop infos (<[name info := inst]> registry) self)
      as [[[registry1|e] self1] t1] eqn:Hrest; [|done].
    simplify_eq.
    apply IH in Hrest; [|done|].
    + rewrite map_size_insert_None in Hrest
        by (apply Hfresh, list_elem_of_here).
      cbn. fold (failures (llm self) (embeddings self) infos).
      simpl length. lia.
    + intros info' Hin. rewrite lookup_insert_ne.
      * apply Hfresh. by apply list_elem_of_further.
      * intros Heq. apply Hname. rewrite Heq. by apply list_elem_of_fmap_2.
  - destruct (load_agents_loop infos registry self)
      as [[[registry1|e'] self1] t1] eqn:Hrest; [|done].
    simplify_eq.
    apply IH in Hrest; [|done|].
    + cbn. fold (failures (llm self) (embeddings self) infos).
      simpl length. lia.
    + intros info' Hin. apply Hfresh. by apply list_elem_of_further.
Qed.

(** X29. When the names of the configuration are unique, the registry
    has one entry for each descriptor that could be constructed: its
    size and the number of failed descriptors add up to the length of
    the configuration. *)
Theorem init_registry_size config0 llm0 embeddings0 self t :
  NoDup (name <$> config_agents config0) →
  __init__ config0 llm0 embeddings0 = (Ret self, t) →
  (size (agents self)
   + length (failures llm0 embeddings0 (config_agents config0))
   = length (config_agents config0))%nat.
Proof.
  intros Hnodup.
  destruct (init_run config0 llm0 embeddings0)
    as (registry & t0 & -> & Hload & _).
  intros [= <- <-]. cbn.
  unfold Delegator.load_agents in Hload.
  apply load_agents_loop_size in Hload; [|done|by intros; apply lookup_empty].
  cbn in Hload. by rewrite map_size_empty in Hload.
Qed.

(** X30. When no descriptor can be constructed the delegator is built
    all the same, with an empty registry, and then answers every chat
    delegation with the 400 pair. *)
Theorem init_without_agents config0 llm0 embeddings0 self t :
  __init__ config0 llm0 embeddings0 = (Ret self, t) →
  (∀ info, info ∈ config_agents config0 →
           succeeded (resolve_and_construct info llm0 embeddings0) = None) →
  agents self = ∅
  ∧ ∀ agent_name request,
      (delegate_chat agent_name request self).1
      = (Ret (VTuple [VDict {[ "error" :=
                                 VStr ("No such agent registered: "
                                       ++ agent_name) ]};
                      VInt 400]), self).
Proof.
  destruct (init_run config0 llm0 embeddings0)
    as (registry & t0 & -> & _ & Hlookup).
  intros [= <- <-] Hfail. cbn.
  assert (registry = ∅) as ->.
  { apply map_eq. intros n. rewrite Hlookup, lookup_empty.
    apply eq_None_not_Some.
    intros (info & Hin & _ & Hsome)%constructed_as_is_Some.
    rewrite (Hfail info Hin) in Hsome. by destruct Hsome. }
  split; [done|]. intros agent_name request.
  unfold delegate_chat. unfold_M. cbn. by rewrite lookup_empty.
Qed.

End SelectionProperties.

(** ** The further properties in the deployment of [Scenario] *)

Section ScenarioWitnesses.

Import Scenario.

Lemma perform_search_request_failure_witness :
  is_None (effective_term (VStr "rocq") a_search_agent) = false
  ∧ (RealtimeSearch.perform_search requests_get_down find_all_g str_of
       (VStr "rocq") a_search_agent).1
    = (Ret "Error performing web search: Max retries exceeded",
       RealtimeSearch.set_last_search_term (VStr "rocq") a_search_agent).
Proof.
  split; [reflexivity|].
  apply (perform_search_request_failure requests_get_down find_all_g str_of
           (VStr "rocq") a_search_agent
           (Exc ConnectionError "Max retries exceeded"));
    reflexivity.
Defined.

Lemma perform_search_one_get_witness :
  is_None (effective_term VNone
             (RealtimeSearch.set_last_search_term (VStr "rocq")
                a_search_agent)) = false
  ∧ List.filter is_http_get
      (RealtimeSearch.perform_search requests_get_ok find_all_g str_of VNone
         (RealtimeSearch.set_last_search_term (VStr "rocq") a_search_agent)).2
    = [EvHttpGet "https://www.google.com/search?q=rocq"
         RealtimeSearch.USER_AGENT].
Proof.
  split; [reflexivity|].
  apply (perform_search_one_get requests_get_ok find_all_g str_of VNone
           (RealtimeSearch.set_last_search_term (VStr "rocq")
              a_search_agent)).
  reflexivity.
Defined.

Lemma perform_search_repeats_witness :
  is_None (VStr "rocq") = false
  ∧ RealtimeSearch.perform_search requests_get_ok find_all_g str_of VNone
      (RealtimeSearch.perform_search requests_get_ok find_all_g str_of
         (VStr "rocq") a_search_agent).1.2
    = RealtimeSearch.search_for requests_get_ok find_all_g str_of
        (VStr "rocq")
        (RealtimeSearch.set_last_search_term (VStr "rocq") a_search_agent).
Proof.
  split; [reflexivity|].
  apply (perform_search_repeats requests_get_ok find_all_g str_of
           (VStr "rocq") a_search_agent).
  reflexivity.
Defined.

Lemma asks_for_prompt_request term : asks_for (prompt_request term) term.
Proof.
  eexists _, _. split; [reflexivity|]. split; [reflexivity|].
  by rewrite lookup_insert_ne, lookup_singleton_eq.
Qed.

Lemma chat_answers_from_search_text_witness :
  (RealtimeSearch.chat requests_get_down find_all_g str_of
     (prompt_request (VStr "rocq")) a_search_agent).1
  = (Ret (VDict {[ "role" := VStr "assistant";
                   "content" := VStr "An answer." ]}),
     RealtimeSearch.set_last_search_term (VStr "rocq") a_search_agent).
Proof.
  apply (chat_answers_from_search_text requests_get_down find_all_g str_of
           (prompt_request (VStr "rocq")) (VStr "rocq") a_search_agent
           "Error performing web search: Max retries exceeded"
           (RealtimeSearch.set_last_search_term (VStr "rocq") a_search_agent)
           (RealtimeSearch.perform_search requests_get_down find_all_g str_of
              (VStr "rocq") a_search_agent).2
           {| content := " An answer. "; tool_calls := VList [] |}).
  - apply asks_for_prompt_request.
  - reflexivity.
  - reflexivity.
Defined.

Lemma chat_stores_term_witness :
  is_None (VStr "rocq") = false
  ∧ (RealtimeSearch.chat requests_get_ok find_all_g str_of
       (prompt_request (VStr "rocq")) a_search_agent).1.2
    = RealtimeSearch.set_last_search_term (VStr "rocq") a_search_agent.
Proof.
  split; [reflexivity|].
  apply (chat_stores_term requests_get_ok find_all_g str_of
           (prompt_request (VStr "rocq")) (VStr "rocq") a_search_agent).
  - apply asks_for_prompt_request.
  - reflexivity.
Defined.

Lemma strategy_args_lookup :
  strategy_args !! "token_address" = Some (VStr "0xC02a")
  ∧ strategy_args !! "amount" = Some (VInt 100)
  ∧ strategy_args !! "interval_type" = Some (VStr "weekly").
Proof. repeat split; vm_compute; reflexivity. Qed.

Lemma handle_dollar_cost_average_defaults_witness :
  List.filter is_tool
    (DCA.handle_dollar_cost_average create_ok str_of (VDict strategy_args)
       VNone VNone a_dca_agent).2
  = [EvTool "handle_create_dca_strategy"
       [("token_address", VStr "0xC02a"); ("amount", VInt 100);
        ("interval_type", VStr "weekly"); ("total_periods", VNone);
        ("min_price", VNone); ("max_price", VNone);
        ("max_slippage", VFloat 1 (-2)); ("gasless", VBool false)]].
Proof.
  apply (handle_dollar_cost_average_defaults create_ok str_of strategy_args
           VNone VNone a_dca_agent).
  - unfold strategy_args. by rewrite !dom_insert_L, dom_singleton_L, (assoc_L (∪)).
  - vm_compute; reflexivity.
  - vm_compute; reflexivity.
  - vm_compute; reflexivity.
Defined.

Lemma handle_dollar_cost_average_tool_error_witness :
  create_invalid (create_kwargs strategy_args)
  = Raise (Exc ValidationError "Amount must be positive")
  ∧ (DCA.handle_dollar_cost_average create_invalid str_of
       (VDict strategy_args) VNone VNone a_dca_agent).1
    = (Ret (VStr "Amount must be positive", VStr "assistant", VNone),
       a_dca_agent).
Proof.
  split; [reflexivity|].
  apply (handle_dollar_cost_average_tool_error create_invalid str_of
           strategy_args VNone VNone a_dca_agent (VStr "0xC02a") (VInt 100)
           (VStr "weekly") (Exc ValidationError "Amount must be positive"));
    vm_compute; reflexivity.
Defined.

Lemma handle_dollar_cost_average_result_without_id_witness :
  (∅ : gmap string pyval) !! "strategy_id" = None
  ∧ (DCA.handle_dollar_cost_average create_no_id str_of
       (VDict strategy_args) VNone VNone a_dca_agent).1.1
    = Raise (Exc KeyError "'strategy_id'").
Proof.
  split; [reflexivity|].
  destruct (handle_dollar_cost_average_result_without_id create_no_id str_of
              strategy_args VNone VNone a_dca_agent (VStr "0xC02a") (VInt 100)
              (VStr "weekly") ∅ (VStr "assistant")) as [-> _];
    vm_compute; reflexivity.
Defined.

Lemma strategy_handlers_missing_id_witness :
  (∅ : gmap string pyval) !! "strategy_id" = None
  ∧ DCA.handle_cancel_dca_strategy tool_ok str_of (VDict ∅) VNone VNone
      a_dca_agent
    = (Raise (Exc KeyError "'strategy_id'"), a_dca_agent, []).
Proof.
  split; [reflexivity|].
  apply (strategy_handlers_missing_id tool_ok tool_ok tool_ok str_of ∅
           VNone VNone a_dca_agent).
  reflexivity.
Defined.

Lemma strategy_handlers_errors_witness :
  id_args !! "strategy_id" = Some (VStr "s-1")
  ∧ (DCA.handle_pause_dca_strategy tool_not_found str_of (VDict id_args)
       VNone VNone a_dca_agent).1
    = (Ret (VStr "Strategy not found", VStr "assistant", VNone),
       a_dca_agent).
Proof.
  split; [reflexivity|].
  apply (strategy_handlers_errors tool_not_found tool_not_found
           tool_not_found str_of id_args VNone VNone a_dca_agent (VStr "s-1")
           (Exc StrategyNotFoundError "Strategy not found"));
    reflexivity.
Defined.

Lemma handle_function_call_unsupported_witness :
  (DCA.handle_function_call create_ok tool_ok tool_ok tool_ok str_of
     "handle_swap" (VDict ∅) VNone VNone a_dca_agent).1.1
  = Ret (VStr "Error: Function 'handle_swap' not supported.",
         VStr "assistant", VNone).
Proof.
  rewrite (handle_function_call_unsupported create_ok tool_ok tool_ok tool_ok
             str_of (Ret DCA.CdpClient) (Ret (VList [])) dca_info (model None)
             the_embeddings a_dca_agent "handle_swap" (VDict ∅) VNone VNone).
  - reflexivity.
  - reflexivity.
  - apply (bool_decide_unpack _). vm_compute. exact I.
Defined.

Lemma handle_request_completion_failure_witness :
  create_chat_completion model_down (dca_prompt (VStr "buy ETH"))
    (VList [])
  = Raise (Exc ConnectionError "Connection refused")
  ∧ (DCA.chat create_ok tool_ok tool_ok tool_ok json_loads str_of
       (text_request "buy ETH") (dca_agent_of model_down)).1
    = (Ret (VTuple [VDict {[ "error" := VStr "Connection refused" ]};
                    VInt 500]), dca_agent_of model_down).
Proof.
  split; [reflexivity|].
  destruct (handle_request_completion_failure create_ok tool_ok tool_ok
              tool_ok json_loads str_of (VStr "buy ETH")
              (dca_agent_of model_down)
              (Exc ConnectionError "Connection refused"))
    as [_ Hchat]; [reflexivity|].
  apply (Hchat (text_request "buy ETH") {[ "prompt" := VStr "buy ETH" ]});
    reflexivity.
Defined.

Lemma handle_request_returns_witness :
  ∃ response role t,
    DCA.handle_request create_ok tool_ok tool_ok tool_ok json_loads str_of
      (VStr "hello") a_dca_agent
    = (Ret (response, role, VNone), a_dca_agent, t).
Proof.
  eapply (handle_request_returns create_ok tool_ok tool_ok tool_ok
            json_loads str_of (VStr "hello") a_dca_agent).
  reflexivity.
Defined.

Lemma handle_request_plain_answer_witness :
  (DCA.handle_request create_ok tool_ok tool_ok tool_ok json_loads str_of
     (VStr "hello") a_dca_agent).1
  = (Ret (VStr "hello", VStr "assistant", VNone), a_dca_agent).
Proof.
  destruct (handle_request_plain_answer create_ok tool_ok tool_ok tool_ok
              json_loads str_of (VStr "hello") a_dca_agent
              (VDict {[ "choices" :=
                          VList [VDict {[ "message" :=
                                            VDict {[ "content" :=
                                                       VStr "hello" ]} ]}] ]})
              {[ "content" := VStr "hello" ]}) as [-> _].
  - reflexivity.
  - eexists _, _, _. split; [reflexivity|]. split; reflexivity.
  - reflexivity.
  - reflexivity.
Defined.


Lemma chat_without_prompt_witness :
  (∅ : gmap string pyval) !! "prompt" = None
  ∧ DCA.chat create_ok tool_ok tool_ok tool_ok json_loads str_of
      empty_request a_dca_agent
    = (Ret (VTuple [VDict {[ "error" := VStr "Invalid request data" ]};
                    VInt 400]), a_dca_agent, []).
Proof.
  split; [reflexivity|].
  rewrite (chat_without_prompt create_ok tool_ok tool_ok tool_ok json_loads
             str_of empty_request ∅ a_dca_agent) by reflexivity.
  vm_compute. reflexivity.
Defined.

Lemma delegate_route_unknown_agent_witness :
  Delegator.agents (running None) !! "dca agent" = None
  ∧ (Delegator.delegate_route "dca agent" empty_request "chat"
       (running None)).1
    = (Ret (VTuple [VDict {[ "error" := VStr "No such agent registered" ]};
                    VInt 400]), running None).
Proof.
  split; [vm_compute; reflexivity|].
  rewrite (delegate_route_unknown_agent (running None) "dca agent"
             empty_request "chat"); [reflexivity|].
  vm_compute; reflexivity.
Defined.

Lemma delegate_route_unknown_method_witness :
  agent_getattr (NoChat "RagAgent") "chat" = None
  ∧ (Delegator.delegate_route "general purpose and context-based rag agent"
       empty_request "chat" (running None)).1
    = (Ret (VTuple [VDict {[ "error" :=
                               VStr "No such method 'chat' in agent 'general purpose and context-based rag agent'" ]};
                    VInt 400]), running None).
Proof.
  split; [reflexivity|].
  rewrite (delegate_route_unknown_method (running None)
             "general purpose and context-based rag agent" empty_request
             "chat" (NoChat "RagAgent")); [reflexivity|..].
  - vm_compute; reflexivity.
  - reflexivity.
  - reflexivity.
Defined.

Lemma delegate_route_forwards_witness :
  (Delegator.delegate_route "realtime search agent" empty_request "chat"
     (running None)).1.1
  = Ret (VTuple [VDict {[ "error" := VStr "Missing parameters" ]};
                 VInt 400]).
Proof.
  rewrite (delegate_route_forwards (running None) "realtime search agent"
             empty_request "chat" (Search a_search_agent)
             (chat_agent requests_get_ok)
             (Ret (VTuple [VDict {[ "error" := VStr "Missing parameters" ]};
                           VInt 400]))
             (Search a_search_agent)
             (chat_agent requests_get_ok empty_request
                (Search a_search_agent)).2).
  - reflexivity.
  - vm_compute; reflexivity.
  - reflexivity.
  - reflexivity.
  - vm_compute; reflexivity.
Defined.

Lemma get_delegator_response_unchecked_witness :
  ("weather agent" ∉ Delegator.available_agents
                       (running (Some "weather agent")) false)
  ∧ (Delegator.get_delegator_response (VStr "will it rain?") false
       (running (Some "weather agent"))).1
    = (Ret (VDict {[ "agent" := VStr "weather agent" ]}),
       running (Some "weather agent")).
Proof.
  split; [apply (bool_decide_unpack _); vm_compute; exact I|].
  apply (get_delegator_response_unchecked
           (running (Some "weather agent")) (VStr "will it rain?") false
           {| content := "";
              tool_calls :=
                VList [VDict {[ "name" := VStr "select_agent";
                                "args" :=
                                  VDict {[ "agent" := VStr "weather agent" ]}
                       ]}] |}
           {[ "name" := VStr "select_agent";
              "args" := VDict {[ "agent" := VStr "weather agent" ]} ]}
           {[ "agent" := VStr "weather agent" ]} []);
    vm_compute; reflexivity.
Defined.

Lemma get_delegator_response_incomplete_call_witness :
  (Delegator.get_delegator_response (VStr "hello") false
     (running_with
        (model_answering
           (VList [VDict {[ "name" := VStr "select_agent";
                            "args" := VDict ∅ ]}])))).1.1
  = Ret (VDict {[ "agent" := VNone ]}).
Proof.
  destruct (get_delegator_response_incomplete_call
              (running_with
                 (model_answering
                    (VList [VDict {[ "name" := VStr "select_agent";
                                     "args" := VDict ∅ ]}])))
              (VStr "hello") false
              {| content := "";
                 tool_calls :=
                   VList [VDict {[ "name" := VStr "select_agent";
                                   "args" := VDict ∅ ]}] |}
              {[ "name" := VStr "select_agent"; "args" := VDict ∅ ]} []
              eq_refl eq_refl) as [Hnone _].
  rewrite (Hnone ∅); [reflexivity| |reflexivity].
  vm_compute. reflexivity.
Defined.

Lemma registered_is_candidate_witness :
  is_Some (Delegator.agents (running None) !! "realtime search agent")
  ∧ "realtime search agent"
    ∈ Delegator.available_agents (running None) true.
Proof.
  assert (is_Some (Delegator.agents (running None)
                     !! "realtime search agent")) as Hsome
    by (vm_compute; eauto).
  split; [exact Hsome|].
  apply (registered_is_candidate import_module the_config (model None)
           the_embeddings (running None) (the_delegator None).2
           "realtime search agent"); [|exact Hsome].
  vm_compute; reflexivity.
Defined.

Lemma init_registry_size_witness :
  (size (Delegator.agents (running None))
   + length (Delegator.failures import_module (model None) the_embeddings
               (config_agents the_config))
   = length (config_agents the_config))%nat.
Proof.
  apply (init_registry_size import_module the_config (model None)
           the_embeddings (running None) (the_delegator None).2).
  - apply (running_unique_names None).
  - vm_compute; reflexivity.
Defined.

Lemma init_without_agents_witness :
  ∃ self t,
    Delegator.__init__ import_module dca_only (model None) the_embeddings
    = (Ret self, t)
    ∧ Delegator.agents self = ∅.
Proof.
  eexists _, _. split; [vm_compute; reflexivity|].
  eapply (init_without_agents import_module dca_only (model None)
            the_embeddings).
  - vm_compute; reflexivity.
  - intros info [->|[]%elem_of_nil]%elem_of_cons. reflexivity.
Defined.

End ScenarioWitnesses.
